(** * PyANSYS generic GUI: file validation and out-of-process launchers

    A shallow embedding of the non-presentational logic of the repository:

    - [src/file_manager.py]      : [FileManager.validate_files]
    - [src/result_viewer.py]     : [ResultViewer.open_interactive],
                                   [create_von_mises_script],
                                   [create_total_deformation_script],
                                   [run_script]
    - [src/mechanical_viewer.py] : [MechanicalViewer.open_interactive_view],
                                   [launch_interactive_viewer]
    - [src/interactive_worker.py]: the argument check of the worker script
    - [article_snippets/result_visualization_example.py] :
                                   the generated worker of [launch_viewer]
    - [launch.py], [main.py]     : the two entry points

    Conventions.  Paths and texts are [string]s (sequences of bytes).  The
    filesystem is a finite map from paths to file data; [os.path] follows
    [posixpath].  Side effects (dialogs, console lines, status line, started
    threads, child processes) are recorded in explicit state.  What the
    outside world decides (exit codes, captured output, whether a removal
    fails, the values drawn by [uuid.uuid4]) enters as explicit arguments. *)

From Stdlib Require Import ZArith Ascii String.
From stdpp Require Import base tactics option list strings gmap pretty.

Local Open Scope Z_scope.

(** ** Python strings *)

Module PyStr.

(** [str.lower] on the ASCII range (bytes outside [A-Z] are kept). *)
Definition lower_char (a : ascii) : ascii :=
  let n := nat_of_ascii a in
  if (65 <=? n)%nat && (n <=? 90)%nat then ascii_of_nat (n + 32) else a.

Fixpoint lower (s : string) : string :=
  match s with
  | EmptyString => EmptyString
  | String a s' => String (lower_char a) (lower s')
  end.

(** [s.rfind(c)] for a one-character needle: the highest index, or -1. *)
Fixpoint rfind_from (c : ascii) (s : string) (i last : Z) : Z :=
  match s with
  | EmptyString => last
  | String a s' => rfind_from c s' (i + 1) (if Ascii.eqb a c then i else last)
  end.

Definition rfind (c : ascii) (s : string) : Z := rfind_from c s 0 (-1).

(** Slices [s[i:j]], [s[:j]] and [s[i:]] for indices [0 <= i <= j]. *)
Definition slice (s : string) (i j : Z) : string :=
  String.substring (Z.to_nat i) (Z.to_nat (j - i)) s.

Definition slice_to (s : string) (j : Z) : string :=
  String.substring 0 (Z.to_nat j) s.

Definition slice_from (s : string) (i : Z) : string :=
  String.substring (Z.to_nat i) (String.length s - Z.to_nat i) s.

Definition startswith (c : ascii) (s : string) : bool :=
  match s with
  | String a _ => Ascii.eqb a c
  | EmptyString => false
  end.

Fixpoint endswith (c : ascii) (s : string) : bool :=
  match s with
  | EmptyString => false
  | String a EmptyString => Ascii.eqb a c
  | String _ s' => endswith c s'
  end.

(** [sep.join(parts)] *)
Fixpoint join (sep : string) (parts : list string) : string :=
  match parts with
  | [] => ""
  | [x] => x
  | x :: rest => x +:+ sep +:+ join sep rest
  end.

(** [s.strip()]: whitespace removed at both ends. *)
Definition is_space (a : ascii) : bool :=
  let n := nat_of_ascii a in
  ((9 <=? n)%nat && (n <=? 13)%nat) || ((28 <=? n)%nat && (n <=? 32)%nat).

Fixpoint lstrip (s : string) : string :=
  match s with
  | EmptyString => EmptyString
  | String a s' => if is_space a then lstrip s' else s
  end.

Definition strip (s : string) : string :=
  String.rev (lstrip (String.rev (lstrip s))).

(** [s * n] *)
Fixpoint repeat (s : string) (n : nat) : string :=
  match n with
  | O => ""
  | S n' => s +:+ repeat s n'
  end.

(** [needle in s] as a proposition: [s] is [pre + needle + post]. *)
Definition occurs_in (needle s : string) : Prop :=
  ∃ pre post, s = pre +:+ needle +:+ post.

End PyStr.

(** ** [os.path] (posixpath) *)

Module OsPath.
Import PyStr.

Definition sep : ascii := "/"%char.
Definition extsep : ascii := "."%char.

(** The [while filenameIndex < dotIndex] loop of [genericpath._splitext];
    [fuel] is [dotIndex - filenameIndex], the number of iterations left. *)
Fixpoint splitext_scan (p : string) (dotIndex filenameIndex : Z) (fuel : nat)
  : option (string * string) :=
  match fuel with
  | O => None
  | S fuel' =>
      if negb (String.eqb (slice p filenameIndex (filenameIndex + 1))
                          (String extsep EmptyString))
      then Some (slice_to p dotIndex, slice_from p dotIndex)
      else splitext_scan p dotIndex (filenameIndex + 1) fuel'
  end.

Definition splitext (p : string) : string * string :=
  let sepIndex := rfind sep p in
  let dotIndex := rfind extsep p in
  if sepIndex <? dotIndex then
    let filenameIndex := sepIndex + 1 in
    match splitext_scan p dotIndex filenameIndex
            (Z.to_nat (dotIndex - filenameIndex)) with
    | Some r => r
    | None => (p, "")
    end
  else (p, "").

Definition basename (p : string) : string :=
  let i := rfind sep p + 1 in
  slice_from p i.

(** [os.path.dirname(p)] *)
Fixpoint all_sep (s : string) : bool :=
  match s with
  | EmptyString => true
  | String a s' => Ascii.eqb a sep && all_sep s'
  end.

Fixpoint lstrip_sep (s : string) : string :=
  match s with
  | EmptyString => EmptyString
  | String a s' => if Ascii.eqb a sep then lstrip_sep s' else s
  end.

Definition dirname (p : string) : string :=
  let i := rfind sep p + 1 in
  let head := slice_to p i in
  if negb (String.eqb head "") && negb (all_sep head)
  then String.rev (lstrip_sep (String.rev head))
  else head.

(** [os.path.join(a, b)] for two components. *)
Definition join (a b : string) : string :=
  if startswith sep b then b
  else if String.eqb a "" || endswith sep a then a +:+ b
  else a +:+ String sep EmptyString +:+ b.

End OsPath.

(** ** The world outside the program *)

(** A generated visualisation script.  Both generators write a fixed Python
    text in which every [{file_path}] hole of the f-string is replaced by the
    path; the text is represented by the template it comes from and the path
    substituted into it.  Neither template reads [sys.argv]. *)
Inductive ScriptText :=
| VonMisesFix (file_path : string)
| TotalDeformationFix (file_path : string).

Inductive FileData :=
| Opaque
| Script (text : ScriptText).

Inductive Dialog :=
| ShowWarning (title message : string)
| ShowError (title message : string)
| ShowInfo (title message : string).

Inductive ConsoleLine :=
| Stdout (line : string)
| Traceback (exception : string).

Record World := mkWorld {
  fs : gmap string FileData;      (* the files that exist, with their data *)
  console : list ConsoleLine;     (* what the GUI process printed *)
  dialogs : list Dialog;          (* message boxes shown, oldest first *)
  uuid_calls : nat                (* number of [uuid.uuid4()] calls so far *)
}.

Definition path_exists (w : World) (p : string) : bool :=
  bool_decide (is_Some (fs w !! p)).

Definition print (line : string) (w : World) : World :=
  mkWorld (fs w) (console w ++ [Stdout line]) (dialogs w) (uuid_calls w).

Definition print_exc (e : string) (w : World) : World :=
  mkWorld (fs w) (console w ++ [Traceback e]) (dialogs w) (uuid_calls w).

Definition messagebox (d : Dialog) (w : World) : World :=
  mkWorld (fs w) (console w) (dialogs w ++ [d]) (uuid_calls w).

Definition write_file (p : string) (d : FileData) (w : World) : World :=
  mkWorld (<[p := d]> (fs w)) (console w) (dialogs w) (uuid_calls w).

Definition remove_file (p : string) (w : World) : World :=
  mkWorld (delete p (fs w)) (console w) (dialogs w) (uuid_calls w).

Definition next_uuid (w : World) : World :=
  mkWorld (fs w) (console w) (dialogs w) (S (uuid_calls w)).

(** ** [src/file_manager.py] *)

Module FileManager.

Record t := mk {
  supported_mechanical_files : list string;
  supported_result_files : list string
}.

Definition init : t := mk [".mechdat"] [".rst"].

(** One iteration of the [for file_path in files] loop; the loop state is
    the pair of local lists [(valid_files, invalid_files)]. *)
Definition validate_step (w : World) (supported_extensions : list string)
    (acc : list string * list string) (file_path : string)
  : list string * list string :=
  let '(valid_files, invalid_files) := acc in
  if path_exists w file_path then
    let file_ext := PyStr.lower (OsPath.splitext file_path).2 in
    if bool_decide (file_ext ∈ supported_extensions)
    then (valid_files ++ [file_path], invalid_files)
    else (valid_files, invalid_files ++ [file_path])
  else (valid_files, invalid_files ++ [file_path]).

Definition validate_loop (w : World) (files supported_extensions : list string)
  : list string * list string :=
  foldl (validate_step w supported_extensions) ([], []) files.

Definition warning_text (invalid_files : list string) : string :=
  "The following files are not supported or don't exist:\n" +:+
  PyStr.join "\n" (OsPath.basename <$> invalid_files).

(** [validate_files]: the returned list and the world after the call. *)
Definition validate_files (files supported_extensions : list string) (w : World)
  : list string * World :=
  let '(valid_files, invalid_files) := validate_loop w files supported_extensions in
  let w' :=
    match invalid_files with
    | [] => w
    | _ :: _ => messagebox (ShowWarning "Invalid Files" (warning_text invalid_files)) w
    end in
  (valid_files, w').

(** The two selectors; [files] is what the file dialog returned. *)
Definition select_mechanical_files (self : t) (files : list string) (w : World) :=
  validate_files files (supported_mechanical_files self) w.

Definition select_result_files (self : t) (files : list string) (w : World) :=
  validate_files files (supported_result_files self) w.

(** [get_file_info]; the [os.stat] fields (size, modification time) are
    left out. *)
Record FileInfo := mkInfo { name : string; path : string; extension : string }.

Definition get_file_info (file_path : string) (w : World) : option FileInfo :=
  if path_exists w file_path
  then Some (mkInfo (OsPath.basename file_path) file_path
                    (PyStr.lower (OsPath.splitext file_path).2))
  else None.

End FileManager.

(** ** [src/result_viewer.py] *)

Module ResultViewer.

(** What [open(script_path, 'w')] and [f.write] do when a script is
    created: both succeed, [open] raises (no file is made), or [write]
    raises after [open] made the file (the [with] block closes it and the
    file stays, without the script text). *)
Inductive WriteRun :=
| WriteOk
| OpenRaises (e : string)
| WriteRaises (e : string).

(** What the process environment fixes for a run of the GUI: the two
    module-level availability flags, [tempfile.gettempdir()],
    [sys.executable], the text of the [n]-th value that [uuid.uuid4()]
    returns, and what writing the [n]-th script does. *)
Record Env := mkEnv {
  pyvista_available : bool;
  dpf_available : bool;
  gettempdir : string;
  executable : string;
  uuid4 : nat → string;
  script_write : nat → WriteRun
}.

(** The fields of a [ResultViewer] that the handlers read or write. *)
Record t := mk {
  selected_files : list string;
  result_type : string;                 (* the [tk.StringVar] *)
  status_var : string;
  interactive_btn : bool;               (* [true]: state normal *)
  file_tree : list (string * string)    (* rows (name, path) *)
}.

(** State after [__init__] and [create_ui]. *)
Definition init : t :=
  mk [] "von_mises" "Ready - Select result type and .rst file to begin" false [].

Definition set_status (s : string) (self : t) : t :=
  mk (selected_files self) (result_type self) s (interactive_btn self)
     (file_tree self).

(** A worker thread started by [run_script], and how far it got. *)
Inductive Stage := ThreadStarted | ChildRunning | ThreadDone.

#[global] Instance stage_eq_dec : EqDecision Stage.
Proof. solve_decision. Defined.

Record Thread := mkThread {
  thread_script : string;      (* the [script_path] the closure captured *)
  thread_argv : list string;   (* the command line given to [Popen] *)
  thread_stage : Stage
}.

Record Sys := mkSys {
  self : t;
  world : World;
  threads : list Thread
}.

Definition on_world (f : World → World) (st : Sys) : Sys :=
  mkSys (self st) (f (world st)) (threads st).

Definition on_self (f : t → t) (st : Sys) : Sys :=
  mkSys (f (self st)) (world st) (threads st).

(** [update_file_list]: one row per selected file that still exists. *)
Definition update_file_list (files : list string) (w : World)
  : list (string * string) :=
  omap (λ file_path,
          info ← FileManager.get_file_info file_path w;
          Some (FileManager.name info, FileManager.path info)) files.

(** [select_files]; [chosen] is what the file dialog returned. *)
Definition select_files (fm : FileManager.t) (chosen : list string) (st : Sys) : Sys :=
  let '(files, w) := FileManager.select_result_files fm chosen (world st) in
  match files with
  | [] => mkSys (self st) w (threads st)
  | _ :: _ =>
      mkSys (mk files (result_type (self st))
                ("Selected " +:+ pretty (length files) +:+
                 " file(s) - Ready for 3D visualization")
                true (update_file_list files w))
            w (threads st)
  end.

(** [create_von_mises_script] and [create_total_deformation_script]: the
    path is built from a fresh [uuid4], the text is written, the path is
    returned ([inl]); an exception of [open] or [write] leaves the method
    ([inr]). *)
Definition create_von_mises_script (env : Env) (file_path : string) (w : World)
  : (string + string) * World :=
  let script_path :=
    OsPath.join (gettempdir env)
      ("von_mises_fix_" +:+ uuid4 env (uuid_calls w) +:+ ".py") in
  match script_write env (uuid_calls w) with
  | WriteOk =>
      (inl script_path,
       write_file script_path (Script (VonMisesFix file_path)) (next_uuid w))
  | OpenRaises e => (inr e, next_uuid w)
  | WriteRaises e => (inr e, write_file script_path Opaque (next_uuid w))
  end.

Definition create_total_deformation_script (env : Env) (file_path : string) (w : World)
  : (string + string) * World :=
  let script_path :=
    OsPath.join (gettempdir env)
      ("total_deformation_fix_" +:+ uuid4 env (uuid_calls w) +:+ ".py") in
  match script_write env (uuid_calls w) with
  | WriteOk =>
      (inl script_path,
       write_file script_path (Script (TotalDeformationFix file_path)) (next_uuid w))
  | OpenRaises e => (inr e, next_uuid w)
  | WriteRaises e => (inr e, write_file script_path Opaque (next_uuid w))
  end.

(** [run_script]: a daemon thread is created and started; its body runs
    later (see [thread_spawn], [thread_finish]). *)
Definition run_script (env : Env) (script_path : string) (st : Sys) : Sys :=
  mkSys (self st) (world st)
        (threads st ++ [mkThread script_path [executable env; script_path] ThreadStarted]).

(** [open_interactive], the command of the viewer button.  An exception
    of the script creation is not caught here: it leaves the handler before
    [run_script], and Tk's callback wrapper prints its traceback. *)
Definition open_interactive (env : Env) (st : Sys) : Sys :=
  match selected_files (self st) with
  | [] => on_world (messagebox (ShowWarning "No Files" "Please select RST files first.")) st
  | file_path :: _ =>
      if negb (pyvista_available env && dpf_available env) then
        on_world (messagebox (ShowError "Missing Dependencies"
          "PyVista and DPF Post are required.\n\nInstall with: pip install pyvista ansys-dpf-post")) st
      else
        let result_type := result_type (self st) in
        let st1 := on_self (set_status "Launching 3D interactive viewer...") st in
        let '(created, w) :=
          if String.eqb result_type "von_mises"
          then create_von_mises_script env file_path (world st1)
          else create_total_deformation_script env file_path (world st1) in
        match created with
        | inl script_path =>
            run_script env script_path (mkSys (self st1) w (threads st1))
        | inr e => mkSys (self st1) (print_exc e w) (threads st1)
        end
  end.

(** *** The thread body [run_in_thread] *)

(** What [Popen], the output pipe and [wait] do. *)
Inductive ChildRun :=
| PopenRaises (e : string)
| ReadRaises (lines : list string) (e : string)
| Exits (lines : list string) (return_code : Z).

(** What [os.remove] does when it is called. *)
Inductive RemoveRun :=
| RemoveOk
| RemoveRaises (e : string).

Definition echo_lines (lines : list string) (w : World) : World :=
  foldl (λ w line, print ("SCRIPT OUTPUT: " +:+ PyStr.strip line) w) w lines.

(** [except Exception as e] *)
Definition on_exception (e : string) (st : Sys) : Sys :=
  on_world (print_exc e)
    (on_world (print ("EXCEPTION in run_script: " +:+ e))
       (on_self (set_status ("Error: " +:+ e)) st)).

(** After [process.wait()]. *)
Definition on_return_code (return_code : Z) (st : Sys) : Sys :=
  let st1 :=
    on_world (print ("DEBUG: Process completed with return code: " +:+
                     pretty return_code)) st in
  if return_code =? 0 then
    on_world (print "SUCCESS: Script completed successfully")
      (on_self (set_status "3D visualization completed successfully") st1)
  else
    on_world (print ("ERROR: Script failed with return code " +:+ pretty return_code))
      (on_self (set_status "Error in 3D visualization") st1).

(** The [finally] block. *)
Definition cleanup (script_path : string) (r : RemoveRun) (st : Sys) : Sys :=
  if path_exists (world st) script_path then
    match r with
    | RemoveOk =>
        on_world (print ("DEBUG: Cleaned up script file: " +:+ script_path))
          (on_world (remove_file script_path) st)
    | RemoveRaises e => on_world (print ("DEBUG: Cleanup error: " +:+ e)) st
    end
  else st.

Definition thread_begin (script_path : string) (st : Sys) : Sys :=
  on_world (print ("DEBUG: Running script: " +:+ script_path)) st.

Definition thread_end (script_path : string) (c : ChildRun) (r : RemoveRun)
    (st : Sys) : Sys :=
  match c with
  | PopenRaises e => cleanup script_path r (on_exception e st)
  | ReadRaises lines e =>
      cleanup script_path r (on_exception e (on_world (echo_lines lines) st))
  | Exits lines return_code =>
      cleanup script_path r
        (on_return_code return_code (on_world (echo_lines lines) st))
  end.

Definition run_in_thread (script_path : string) (c : ChildRun) (r : RemoveRun)
    (st : Sys) : Sys :=
  thread_end script_path c r (thread_begin script_path st).

(** *** The viewer as a transition system

    The UI handlers run to completion on the UI thread; a worker thread
    takes two steps: up to the return of [Popen] (the child is then live),
    and from there to the end of its body. *)
Inductive Action :=
| Select (chosen : list string)
| SetResultType (v : string)
| ClickOpen
| Spawn (i : nat)
| SpawnFail (i : nat) (e : string) (r : RemoveRun)
| ReadFail (i : nat) (lines : list string) (e : string) (r : RemoveRun)
| ChildExit (i : nat) (lines : list string) (return_code : Z) (r : RemoveRun).

Definition set_stage (s : Stage) (th : Thread) : Thread :=
  mkThread (thread_script th) (thread_argv th) s.

Definition at_stage (i : nat) (s : Stage) (st : Sys) : option Thread :=
  th ← threads st !! i;
  match thread_stage th, s with
  | ThreadStarted, ThreadStarted | ChildRunning, ChildRunning => Some th
  | _, _ => None
  end.

Definition move (i : nat) (s : Stage) (st : Sys) : Sys :=
  mkSys (self st) (world st) (alter (set_stage s) i (threads st)).

Definition step (env : Env) (fm : FileManager.t) (st : Sys) (a : Action) : Sys :=
  match a with
  | Select chosen => select_files fm chosen st
  | SetResultType v =>
      on_self (λ v0, mk (selected_files v0) v (status_var v0)
                        (interactive_btn v0) (file_tree v0)) st
  | ClickOpen =>
      if interactive_btn (self st) then open_interactive env st else st
  | Spawn i =>
      match at_stage i ThreadStarted st with
      | Some th => move i ChildRunning (thread_begin (thread_script th) st)
      | None => st
      end
  | SpawnFail i e r =>
      match at_stage i ThreadStarted st with
      | Some th =>
          move i ThreadDone
            (run_in_thread (thread_script th) (PopenRaises e) r st)
      | None => st
      end
  | ReadFail i lines e r =>
      match at_stage i ChildRunning st with
      | Some th =>
          move i ThreadDone
            (thread_end (thread_script th) (ReadRaises lines e) r st)
      | None => st
      end
  | ChildExit i lines return_code r =>
      match at_stage i ChildRunning st with
      | Some th =>
          move i ThreadDone
            (thread_end (thread_script th) (Exits lines return_code) r st)
      | None => st
      end
  end.

Definition run (env : Env) (fm : FileManager.t) (st : Sys) (acts : list Action) : Sys :=
  foldl (step env fm) st acts.

(** The child processes that are live: spawned and not yet waited for. *)
Definition live_children (st : Sys) : list Thread :=
  filter (λ th, thread_stage th = ChildRunning) (threads st).

Definition boot (w : World) : Sys := mkSys init w [].

End ResultViewer.

(** ** [src/mechanical_viewer.py] *)

Module MechanicalViewer.

(** [sys.executable] and the directory of [mechanical_viewer.py]
    ([os.path.dirname(os.path.abspath(__file__))]). *)
Record Env := mkEnv {
  executable : string;
  current_dir : string
}.

(** The fields of a [MechanicalViewer] that the handlers read or write.  The
    tree rows keep the name and path columns; the size column (a rounded
    float) is left out. *)
Record t := mk {
  selected_files : list string;
  status_var : string;
  view_btn : bool;                       (* [true]: state normal *)
  file_tree : list (string * string);    (* rows (name, path) *)
  tree_selection : list nat              (* selected rows, by position *)
}.

Definition init : t :=
  mk [] "Ready - Select a .mechdat file to begin" false [] [].

Definition set_status (s : string) (self : t) : t :=
  mk (selected_files self) s (view_btn self) (file_tree self) (tree_selection self).

Inductive Stage := ThreadStarted | ChildRunning | ThreadDone.

#[global] Instance stage_eq_dec : EqDecision Stage.
Proof. solve_decision. Defined.

Record Thread := mkThread {
  thread_file : string;         (* the [file_path] the closure captured *)
  thread_argv : list string;    (* the command line, once the child runs *)
  thread_stage : Stage
}.

(** A callback handed to [parent_frame.after(0, ...)].  [CallFailedUnbound]
    is the lambda of the last [except Exception as e] clause: it refers to
    [e], which Python unbinds when the clause ends, so calling it raises
    [NameError] instead of reaching [viewer_failed]. *)
Inductive Callback :=
| CallSuccess
| CallFailed (error : string)
| CallFailedUnbound.

Record Sys := mkSys {
  self : t;
  world : World;
  threads : list Thread;
  pending : list Callback      (* scheduled with [after], oldest first *)
}.

Definition on_world (f : World → World) (st : Sys) : Sys :=
  mkSys (self st) (f (world st)) (threads st) (pending st).

Definition on_self (f : t → t) (st : Sys) : Sys :=
  mkSys (f (self st)) (world st) (threads st) (pending st).

Definition after (cb : Callback) (st : Sys) : Sys :=
  mkSys (self st) (world st) (threads st) (pending st ++ [cb]).

Definition update_file_list (files : list string) (w : World)
  : list (string * string) :=
  omap (λ file_path,
          info ← FileManager.get_file_info file_path w;
          Some (FileManager.name info, FileManager.path info)) files.

(** [select_files]; [chosen] is what the file dialog returned. *)
Definition select_files (fm : FileManager.t) (chosen : list string) (st : Sys) : Sys :=
  let '(files, w) := FileManager.select_mechanical_files fm chosen (world st) in
  match files with
  | [] => mkSys (self st) w (threads st) (pending st)
  | _ :: _ =>
      mkSys (mk files
                ("Selected " +:+ pretty (length files) +:+
                 " file(s) - Ready for interactive view")
                true (update_file_list files w) [])
            w (threads st) (pending st)
  end.

Definition clear_selection (st : Sys) : Sys :=
  on_self (λ _, mk [] "Ready - Select a .mechdat file to begin" false
                   (update_file_list [] (world st)) []) st.

(** [launch_interactive_viewer]: the status line is set and a daemon thread
    running [viewer_worker] is started. *)
Definition launch_interactive_viewer (file_path : string) (st : Sys) : Sys :=
  let st1 := on_self (set_status "Launching interactive 3D viewer...") st in
  mkSys (self st1) (world st1)
        (threads st1 ++ [mkThread file_path [] ThreadStarted]) (pending st1).

(** [open_interactive_view], the command of the view button. *)
Definition open_interactive_view (st : Sys) : Sys :=
  match selected_files (self st) with
  | [] => on_world (messagebox (ShowWarning "No Files" "Please select files first.")) st
  | _ :: _ =>
      match tree_selection (self st) with
      | [] =>
          on_world (messagebox
            (ShowWarning "No Selection" "Please select a file from the list.")) st
      | row :: _ =>
          match file_tree (self st) !! row with
          | Some (_, file_path) => launch_interactive_viewer file_path st
          | None => st
          end
      end
  end.

(** [viewer_success] and [viewer_failed] *)
Definition viewer_success (st : Sys) : Sys :=
  on_world (messagebox
    (ShowInfo "Success" "PyANSYS Mechanical viewer completed successfully!"))
    (on_self (set_status "Interactive 3D viewer completed successfully") st).

Definition viewer_failed (error : string) (st : Sys) : Sys :=
  on_world (messagebox
    (ShowError "Viewer Error" ("Failed to launch PyANSYS viewer:\n\n" +:+ error)))
    (on_self (set_status "Viewer launch failed") st).

(** *** The thread body [viewer_worker] *)

(** What [subprocess.run(..., check=True, capture_output=True, text=True)]
    does: it raises before a child completes, or the child completes with a
    return code and the two separately captured streams. *)
Inductive RunResult :=
| RunRaises (e : string)
| Completed (returncode : Z) (stdout stderr : string).

(** The search for [interactive_worker.py]: the path to use, or the message
    of the [FileNotFoundError]. *)
Definition find_worker (env : Env) (w : World) : World * (string + string) :=
  let worker_script := OsPath.join (current_dir env) "interactive_worker.py" in
  let w1 := print ("DEBUG: Looking for worker script at: " +:+ worker_script) w in
  if path_exists w1 worker_script then (w1, inl worker_script)
  else
    let alt_worker_script :=
      OsPath.join (OsPath.dirname (current_dir env)) "interactive_worker.py" in
    let w2 := print ("DEBUG: Trying alternative path: " +:+ alt_worker_script) w1 in
    if path_exists w2 alt_worker_script then (w2, inl alt_worker_script)
    else (w2, inr ("Interactive worker script not found at " +:+ worker_script +:+
                   " or " +:+ alt_worker_script)).

(** [except Exception as e] *)
Definition on_exception (e : string) (st : Sys) : Sys :=
  after CallFailedUnbound
    (on_world (print ("DEBUG: Exception occurred: " +:+ e)) st).

(** Up to the call of [subprocess.run]: the command line, unless the worker
    script is missing. *)
Definition worker_begin (env : Env) (file_path : string) (st : Sys)
  : Sys * option (list string) :=
  let '(w, found) := find_worker env (world st) in
  let st1 := mkSys (self st) w (threads st) (pending st) in
  match found with
  | inl worker_script =>
      (on_world (print ("DEBUG: Launching with file: " +:+ file_path))
         (on_world (print ("DEBUG: Using worker script: " +:+ worker_script)) st1),
       Some [executable env; worker_script; file_path])
  | inr msg => (on_exception msg st1, None)
  end.

(** [e.stderr if e.stderr else e.stdout] *)
Definition error_msg (stdout stderr : string) : string :=
  if String.eqb stderr "" then stdout else stderr.

(** From the return of [subprocess.run] to the end of the body. *)
Definition worker_end (r : RunResult) (st : Sys) : Sys :=
  match r with
  | RunRaises e => on_exception e st
  | Completed returncode stdout stderr =>
      if returncode =? 0 then
        after CallSuccess
          (on_world (print "DEBUG: Process completed successfully") st)
      else
        let error_msg := error_msg stdout stderr in
        after (CallFailed error_msg)
          (on_world (print ("DEBUG: Process failed with error: " +:+ error_msg)) st)
  end.

(** The UI loop runs one scheduled callback. *)
Definition dispatch (cb : Callback) (st : Sys) : Sys :=
  match cb with
  | CallSuccess => viewer_success st
  | CallFailed error => viewer_failed error st
  | CallFailedUnbound => on_world (print_exc "NameError") st
  end.

(** *** The viewer as a transition system

    Next to the handlers, the worker threads and the UI loop, the files
    change under the viewer: another program creates a file
    ([FileAppears]) or deletes one ([FileVanishes]) at any moment. *)
Inductive Action :=
| Select (chosen : list string)
| Clear
| SelectRows (rows : list nat)
| ClickView
| Spawn (i : nat)
| SpawnFail (i : nat) (e : string)
| ChildDone (i : nat) (r : RunResult)
| Idle
| FileAppears (p : string)
| FileVanishes (p : string).

Definition set_thread (argv : list string) (s : Stage) (th : Thread) : Thread :=
  mkThread (thread_file th) argv s.

Definition at_stage (i : nat) (s : Stage) (st : Sys) : option Thread :=
  th ← threads st !! i;
  match thread_stage th, s with
  | ThreadStarted, ThreadStarted | ChildRunning, ChildRunning => Some th
  | _, _ => None
  end.

Definition move (i : nat) (argv : list string) (s : Stage) (st : Sys) : Sys :=
  mkSys (self st) (world st) (alter (set_thread argv s) i (threads st)) (pending st).

Definition step (env : Env) (fm : FileManager.t) (st : Sys) (a : Action) : Sys :=
  match a with
  | Select chosen => select_files fm chosen st
  | Clear => clear_selection st
  | SelectRows rows =>
      on_self (λ v, mk (selected_files v) (status_var v) (view_btn v) (file_tree v)
                       (filter (λ r, r < length (file_tree v))%nat rows)) st
  | ClickView => if view_btn (self st) then open_interactive_view st else st
  | Spawn i =>
      match at_stage i ThreadStarted st with
      | Some th =>
          match worker_begin env (thread_file th) st with
          | (st1, Some argv) => move i argv ChildRunning st1
          | (st1, None) => move i [] ThreadDone st1
          end
      | None => st
      end
  | SpawnFail i e =>
      match at_stage i ThreadStarted st with
      | Some th =>
          match worker_begin env (thread_file th) st with
          | (st1, Some argv) => move i [] ThreadDone (worker_end (RunRaises e) st1)
          | (st1, None) => move i [] ThreadDone st1
          end
      | None => st
      end
  | ChildDone i r =>
      match at_stage i ChildRunning st with
      | Some th => move i (thread_argv th) ThreadDone (worker_end r st)
      | None => st
      end
  | Idle =>
      match pending st with
      | [] => st
      | cb :: rest => dispatch cb (mkSys (self st) (world st) (threads st) rest)
      end
  | FileAppears p => on_world (write_file p Opaque) st
  | FileVanishes p => on_world (remove_file p) st
  end.

Definition run (env : Env) (fm : FileManager.t) (st : Sys) (acts : list Action) : Sys :=
  foldl (step env fm) st acts.

Definition live_children (st : Sys) : list Thread :=
  filter (λ th, thread_stage th = ChildRunning) (threads st).

Definition boot (w : World) : Sys := mkSys init w [] [].

End MechanicalViewer.

(** ** The child scripts: how they start *)

Module Scripts.

Inductive ResultKind := VonMisesStress | TotalDeformation.

(** What a child script does first: it leaves with a status after printing
    some lines, or it goes on to open or plot a file. *)
Inductive Start :=
| Exit (status : Z) (printed : list string)
| OpenMechanical (mechdat_path : string)
| PlotResult (rst_path : string) (kind : ResultKind).

(** [src/interactive_worker.py]: [import_error] is the message of the
    exception raised by the import of [ansys.mechanical.core], if any.  The
    [sys.exit(1)] of the argument check is a [SystemExit], which the
    [except Exception] clause does not catch. *)
Definition interactive_worker (import_error : option string) (argv : list string)
  : Start :=
  match import_error with
  | Some e => Exit 1 ["Error: " +:+ e; "Press Enter to continue..."]
  | None =>
      if bool_decide (length argv ≠ 2%nat) then
        Exit 1 ["Usage: python interactive_worker.py <mechdat_file_path>"]
      else
        match argv !! 1%nat with
        | Some mechdat_path => OpenMechanical mechdat_path
        | None => Exit 1 []
        end
  end.

(** The scripts written by [ResultViewer.create_von_mises_script] and
    [create_total_deformation_script]: module-level imports, then [main()],
    which takes no parameter and loads the embedded path. *)
Definition generated_script (text : ScriptText) (imports_ok : bool)
    (argv : list string) : Start :=
  if imports_ok then
    match text with
    | VonMisesFix file_path => PlotResult file_path VonMisesStress
    | TotalDeformationFix file_path => PlotResult file_path TotalDeformation
    end
  else Exit 1 [].

(** The worker text built by [ResultFileViewer.launch_viewer] in
    [article_snippets/result_visualization_example.py]; [embedded] is the
    [result_type] substituted into the text. *)
Definition snippet_worker (embedded : string) (import_error : option string)
    (argv : list string) : Start :=
  match import_error with
  | Some e =>
      Exit 1 ["Error in RST viewer: " +:+ e; "Press Enter to continue..."]
  | None =>
      if bool_decide (length argv < 2)%nat then
        Exit 1 ["PyVista and DPF Post imported successfully";
                "Usage: python script.py <rst_file_path> [result_type]"]
      else
        match argv !! 1%nat with
        | Some rst_path =>
            let result_type :=
              if bool_decide (length argv < 3)%nat then embedded
              else default embedded (argv !! 2%nat) in
            if String.eqb result_type "Von Mises Stress"
            then PlotResult rst_path VonMisesStress
            else PlotResult rst_path TotalDeformation
        | None => Exit 1 []
        end
  end.

(** The command line [launch_viewer] passes to [subprocess.run]. *)
Definition snippet_argv (executable temp_script file_path result_type : string)
  : list string :=
  [executable; temp_script; file_path; result_type].

End Scripts.

(** ** The entry points: [launch.py] and [main.py] *)

Module Process.

(** How the top-level code of a script ends, and the exit status the
    interpreter then reports.  Left unhandled, a [KeyboardInterrupt] ends
    the process the way the platform ends an interrupted program; [status]
    is what the platform then reports. *)
Inductive Outcome :=
| Returned                      (* ran to the end *)
| SysExit (status : Z)          (* [sys.exit(status)] *)
| Uncaught (exception : string) (* an [Exception] nobody caught *)
| Interrupted (status : Z)      (* a [KeyboardInterrupt] nobody caught *).

Definition exit_status (o : Outcome) : Z :=
  match o with
  | Returned => 0
  | SysExit status => status
  | Uncaught _ => 1
  | Interrupted status => status
  end.

Inductive Event :=
| Print (line : string)
| Input (prompt : string)
| Chdir (dir : string)
| Run (argv : list string)      (* [subprocess.run] *)
| Mainloop                      (* the Tk main loop ran *)
| PrintExc (exception : string).

(** What a call can raise: an instance of [Exception], which an
    [except Exception] clause catches, or one of the two other exceptions
    that matter here, which it does not catch. *)
Inductive Raised :=
| Error (e : string)
| KeyboardInterrupt (status : Z)
| SystemExit (status : Z).

(** What the interpreter does when [r] reaches the top of the script. *)
Definition unhandled (r : Raised) : list Event * Outcome :=
  match r with
  | Error e => ([PrintExc e], Uncaught e)
  | KeyboardInterrupt status => ([PrintExc "KeyboardInterrupt"], Interrupted status)
  | SystemExit status => ([], SysExit status)
  end.

End Process.

Module Launch.
Import Process.

(** [check_dependencies]: which of the three imports succeed. *)
Record Deps := mkDeps {
  tkinter : bool;
  pyvista : bool;
  ansys_dpf_post : bool
}.

(** What [input(...).strip().lower()] gives at the install prompt:
    [Typed response] when a line was typed, [response] being the value of
    the variable of that name, the line stripped and lowercased; or
    [input] raises ([EOFError] on a closed standard input, Ctrl-C). *)
Inductive InputRun :=
| Typed (response : string)
| InputRaises (r : Raised).

(** How [subprocess.run(install_commands[dep].split(), check=True)] ends:
    pip exits with status 0; pip exits with another status
    ([CalledProcessError]); or the call raises something else
    ([FileNotFoundError] when there is no [pip] program, Ctrl-C). *)
Inductive PipRun :=
| PipOk
| PipCalledProcessError
| PipRaises (r : Raised).

(** How [subprocess.run([sys.executable, main_script], check=True)] ends. *)
Inductive GuiRun :=
| GuiOk
| GuiCalledProcessError (e : string)
| GuiKeyboardInterrupt
| GuiException (e : string).

Record Env := mkEnv {
  deps : Deps;
  response : InputRun;
  pip_run : string → PipRun;
  current_dir : string;            (* directory of [launch.py] *)
  executable : string;
  main_script_exists : bool;
  gui_run : GuiRun
}.

Definition install_commands (dep : string) : option (list string) :=
  if String.eqb dep "pyvista" then Some ["pip"; "install"; "pyvista"]
  else if String.eqb dep "ansys-dpf-post" then Some ["pip"; "install"; "ansys-dpf-post"]
  else None.

(** The body of the [for] loop: the events, and what leaves the body, if
    anything does.  Only [CalledProcessError] is caught. *)
Definition install_one (env : Env) (dep : string) : list Event * option Raised :=
  match install_commands dep with
  | Some argv =>
      let start := [Print ("Installing " +:+ dep +:+ "..."); Run argv] in
      match pip_run env dep with
      | PipOk => (start ++ [Print ("✅ " +:+ dep +:+ " installed successfully")], None)
      | PipCalledProcessError => (start ++ [Print ("❌ Failed to install " +:+ dep)], None)
      | PipRaises r => (start, Some r)
      end
  | None => ([], None)
  end.

(** The [for] loop: it ends at the first exception that leaves its body. *)
Fixpoint install_all (env : Env) (missing_deps : list string)
  : list Event * option Raised :=
  match missing_deps with
  | [] => ([], None)
  | dep :: rest =>
      match install_one env dep with
      | (events, Some r) => (events, Some r)
      | (events, None) =>
          let '(more, raised) := install_all env rest in (events ++ more, raised)
      end
  end.

(** [install_missing_dependencies]: the events, and the exception that
    leaves the function, if one does. *)
Definition install_missing_dependencies (env : Env) (missing_deps : list string)
  : list Event * option Raised :=
  match missing_deps with
  | [] => ([], None)
  | _ :: _ =>
      let asked :=
        [Print ("\n⚠️  Missing dependencies: " +:+ PyStr.join ", " missing_deps);
         Input "\n❓ Would you like to install them automatically? (y/n): "] in
      match response env with
      | InputRaises r => (asked, Some r)
      | Typed response =>
          if bool_decide (response ∈ ["y"; "yes"]) then
            let '(events, raised) := install_all env missing_deps in
            (asked ++ Print "\n📦 Installing dependencies..." :: events, raised)
          else
            (asked ++
             [Print "\n💡 You can install them manually:";
              Print "   pip install pyvista ansys-dpf-post"], None)
      end
  end.

Definition missing_deps (d : Deps) : list string :=
  (if pyvista d then [] else ["pyvista"]) ++
  (if ansys_dpf_post d then [] else ["ansys-dpf-post"]).

Definition banner : list Event :=
  [Print "🚀 PyANSYS Modern GUI Launcher (Working Version)";
   Print (PyStr.repeat "=" 50);
   Print "🔥 Now using working methods from viewer_fix.py!";
   Print "";
   Print "🔍 Checking dependencies..."].

Definition features : list Event :=
  [Print "\n🎉 Features available:";
   Print "   ✅ RST file visualization (Von Mises, Total Deformation)";
   Print "   ✅ MECHDAT file viewing";
   Print "   ✅ 3D Interactive PyVista viewer";
   Print "   ✅ Working methods from viewer_fix.py"].

(** The [try] statement around the start of the GUI. *)
Definition start_gui (env : Env) (main_script : string) : list Event :=
  [Chdir (current_dir env); Run [executable env; main_script]] ++
  match gui_run env with
  | GuiOk => []
  | GuiCalledProcessError e =>
      [Print ("❌ Failed to launch application: " +:+ e);
       Print "\n🔧 Troubleshooting tips:";
       Print "   1. Make sure all dependencies are installed";
       Print "   2. Check that Python is properly configured";
       Print "   3. Try running 'python main.py' manually"]
  | GuiKeyboardInterrupt => [Print "\n🛑 Application interrupted by user"]
  | GuiException e => [Print ("❌ Unexpected error: " +:+ e)]
  end.

(** [main()]: the call of [install_missing_dependencies] is not inside a
    [try], so what leaves it leaves [main()] and the script. *)
Definition main (env : Env) : list Event * Outcome :=
  let d := deps env in
  let missing_deps := missing_deps d in
  if negb (tkinter d) then
    (banner ++
     [Print "❌ Tkinter: Not available (required)";
      Print "   Install Python with tkinter support"],
     Returned)
  else
    let checks :=
      [Print "✅ Tkinter: Available";
       Print (if pyvista d then "✅ PyVista: Available"
              else "❌ PyVista: Not available");
       Print (if ansys_dpf_post d then "✅ ANSYS DPF Post: Available"
              else "❌ ANSYS DPF Post: Not available")] in
    let '(install, raised) := install_missing_dependencies env missing_deps in
    match raised with
    | Some r => (banner ++ checks ++ install ++ (unhandled r).1, (unhandled r).2)
    | None =>
        let main_script := OsPath.join (current_dir env) "main.py" in
        if negb (main_script_exists env) then
          (banner ++ checks ++ install ++
           [Print ("❌ Main script not found: " +:+ main_script)],
           Returned)
        else
          (banner ++ checks ++ install ++
           [Print "\n🎯 Launching PyANSYS GUI (Working Version)...";
            Print ("📁 Working directory: " +:+ current_dir env);
            Print ("🐍 Python executable: " +:+ executable env)] ++
           features ++ start_gui env main_script,
           Returned)
    end.

(** Running [launch.py] as a script: [main()] is its last statement. *)
Definition script (env : Env) : list Event * Z :=
  let '(events, outcome) := main env in (events, exit_status outcome).

Definition gui_started (events : list Event) : Prop :=
  ∃ argv, Run argv ∈ events ∧ head argv ≠ Some "pip".

End Launch.

Module Main.
Import Process.

(** How [root.mainloop()] ends: it returns when the window is closed, or an
    exception leaves it: an [Exception], the [SystemExit] of a callback
    (Tk's callback wrapper lets it through), or the [KeyboardInterrupt] of
    Ctrl-C. *)
Inductive LoopRun :=
| LoopReturns
| LoopRaises (r : Raised).

(** [tkinter_importable]: whether the module-level [import tkinter as tk]
    succeeds.  [startup_error]: the [Exception] raised in the [try] block
    of [main()] before the main loop (import of the application, [tk.Tk()],
    construction of the application), if any.  [mainloop]: how
    [root.mainloop()] ends. *)
Record Env := mkEnv {
  tkinter_importable : bool;
  startup_error : option string;
  mainloop : LoopRun
}.

(** The [except Exception as e] clause. *)
Definition on_error (e : string) : list Event :=
  [Print ("Error starting application: " +:+ e); PrintExc e].

Definition main (env : Env) : list Event * Outcome :=
  let hello :=
    [Print "Starting PyANSYS Modern GUI Application (Working Version)...";
     Print "Using working methods from viewer_fix.py for RST visualization"] in
  match startup_error env with
  | Some e => (hello ++ on_error e, SysExit 1)
  | None =>
      let ready :=
        [Print "✅ Application initialized successfully";
         Print "📋 Features:";
         Print "   - RST file visualization (Von Mises Stress, Total Deformation)";
         Print "   - MECHDAT file viewing";
         Print "   - 3D Interactive PyVista viewer";
         Print (String "010"%char "🚀 Starting GUI...");
         Mainloop] in
      match mainloop env with
      | LoopReturns => (hello ++ ready, Returned)
      | LoopRaises (Error e) => (hello ++ ready ++ on_error e, SysExit 1)
      | LoopRaises r => (hello ++ ready ++ (unhandled r).1, (unhandled r).2)
      end
  end.

Definition script (env : Env) : list Event * Z :=
  if tkinter_importable env then
    let '(events, outcome) := main env in (events, exit_status outcome)
  else ([PrintExc "ImportError"], exit_status (Uncaught "ImportError")).

End Main.

(** ** [article_snippets/file_selection_example.py] *)

Module FileSelector.

(** One iteration of the loop of [ANSYSFileSelector.validate_files]: a path
    that does not exist goes to neither list. *)
Definition validate_step (w : World) (valid_extensions : list string)
    (acc : list string * list string) (file_path : string)
  : list string * list string :=
  let '(valid_files, invalid_files) := acc in
  if path_exists w file_path then
    let file_ext := PyStr.lower (OsPath.splitext file_path).2 in
    if bool_decide (file_ext ∈ valid_extensions)
    then (valid_files ++ [file_path], invalid_files)
    else (valid_files, invalid_files ++ [file_path])
  else (valid_files, invalid_files).

Definition validate_loop (w : World) (files valid_extensions : list string)
  : list string * list string :=
  foldl (validate_step w valid_extensions) ([], []) files.

Definition warning_text (invalid_files : list string) : string :=
  "The following files are not supported:\n" +:+
  PyStr.join "\n" (OsPath.basename <$> invalid_files).

Definition validate_files (files valid_extensions : list string) (w : World)
  : list string * World :=
  let '(valid_files, invalid_files) := validate_loop w files valid_extensions in
  let w' :=
    match invalid_files with
    | [] => w
    | _ :: _ => messagebox (ShowWarning "Invalid Files" (warning_text invalid_files)) w
    end in
  (valid_files, w').

End FileSelector.

(** ** [main.py]: [setup_path] *)

Module MainSetup.

(** [setup_path()] as a function of the directory of [main.py] and of
    [sys.path]: the new [sys.path]. *)
Definition setup_path (current_dir : string) (sys_path : list string) : list string :=
  let src_dir := OsPath.join current_dir "src" in
  if bool_decide (src_dir ∈ sys_path) then sys_path else src_dir :: sys_path.

End MainSetup.

(** ** [article_snippets/result_visualization_example.py]: [launch_viewer] *)

Module SnippetViewer.

(** What [subprocess.run(..., capture_output=True, text=True)] does (no
    [check]: a non-zero return code raises nothing). *)
Inductive RunResult :=
| RunRaises (e : string)
| Completed (returncode : Z) (stdout stderr : string).

(** What [os.unlink] does. *)
Inductive UnlinkRun :=
| UnlinkOk
| UnlinkRaises.

(** A callback handed to [root.after(0, ...)]: [on_success], the lambda
    calling [on_error] with a message, and the lambda of the [except]
    clause, which calls [on_error] with the text of the exception [e]. *)
Inductive Callback :=
| OnSuccess
| OnError (error_msg : string)
| OnErrorOf (e : string).

Record Sys := mkSys {
  world : World;
  spawned : list (list string);   (* command lines given to [subprocess.run] *)
  scheduled : list Callback
}.

Definition after (cb : Callback) (st : Sys) : Sys :=
  mkSys (world st) (spawned st) (scheduled st ++ [cb]).

(** [launch_viewer(file_path, result_type)].  [temp_script] is the name
    [tempfile.NamedTemporaryFile] chose, [write_error] the exception raised
    while the worker text is built and written, if any; the text itself is
    not represented. *)
Definition launch_viewer (executable temp_script : string)
    (write_error : option string) (r : RunResult) (u : UnlinkRun)
    (file_path result_type : string) (st : Sys) : Sys :=
  match write_error with
  | Some e => after (OnErrorOf e) st
  | None =>
      let st1 :=
        mkSys (write_file temp_script Opaque (world st))
              (spawned st ++ [[executable; temp_script; file_path; result_type]])
              (scheduled st) in
      match r with
      | RunRaises e => after (OnErrorOf e) st1
      | Completed returncode stdout stderr =>
          let st2 :=
            match u with
            | UnlinkOk => mkSys (remove_file temp_script (world st1))
                                (spawned st1) (scheduled st1)
            | UnlinkRaises => st1
            end in
          if returncode =? 0 then after OnSuccess st2
          else after (OnError (if String.eqb stderr "" then stdout else stderr)) st2
      end
  end.

End SnippetViewer.

(** * Properties *)

(** ** Vocabulary *)

(** The two checks of the validator: the path exists and its final
    extension, lowercased, is one of the accepted ones. *)
Definition acceptable (w : World) (exts : list string) (p : string) : Prop :=
  is_Some (fs w !! p) ∧ PyStr.lower (OsPath.splitext p).2 ∈ exts.

#[global] Instance acceptable_dec w exts p : Decision (acceptable w exts p).
Proof. unfold acceptable. apply _. Defined.

(** [needle in s], computed: [x] is a prefix of [s], and [x] occurs in [s]. *)
Fixpoint is_prefix (x s : string) : bool :=
  match x, s with
  | EmptyString, _ => true
  | String a x', String b s' => Ascii.eqb a b && is_prefix x' s'
  | String _ _, EmptyString => false
  end.

Fixpoint occursb (x s : string) : bool :=
  is_prefix x s ||
  match s with
  | EmptyString => false
  | String _ s' => occursb x s'
  end.

(** The text of a message box. *)
Definition dialog_text (d : Dialog) : string :=
  match d with
  | ShowWarning _ m | ShowError _ m | ShowInfo _ m => m
  end.

(** The state of the result viewer when the [finally] block of
    [run_in_thread] starts. *)
Definition body (script_path : string) (c : ResultViewer.ChildRun)
    (st : ResultViewer.Sys) : ResultViewer.Sys :=
  let st0 := ResultViewer.thread_begin script_path st in
  match c with
  | ResultViewer.PopenRaises e => ResultViewer.on_exception e st0
  | ResultViewer.ReadRaises lines e =>
      ResultViewer.on_exception e
        (ResultViewer.on_world (ResultViewer.echo_lines lines) st0)
  | ResultViewer.Exits lines return_code =>
      ResultViewer.on_return_code return_code
        (ResultViewer.on_world (ResultViewer.echo_lines lines) st0)
  end.

(** A small world used in the examples: two data files and the worker
    script exist; nothing was printed or shown yet. *)
Definition demo_world : World :=
  mkWorld (<["/data/beam.rst" := Opaque]>
             (<["/data/plate.rst" := Opaque]>
                (<["/data/frame.mechdat" := Opaque]>
                   (<["/app/src/interactive_worker.py" := Opaque]> ∅))))
          [] [] 0.

(** The mechanical viewer's environment: the module lives in [/app/src]. *)
Definition demo_mech_env : MechanicalViewer.Env :=
  MechanicalViewer.mkEnv "/usr/bin/python3" "/app/src".

(** The result viewer after the user picked the two result files. *)
Definition demo_selected : ResultViewer.Sys :=
  ResultViewer.select_files FileManager.init ["/data/beam.rst"; "/data/plate.rst"]
    (ResultViewer.boot demo_world).

(** The mechanical viewer after the user picked the mechanical file and
    selected its row. *)
Definition demo_mech_selected : MechanicalViewer.Sys :=
  MechanicalViewer.run demo_mech_env FileManager.init (MechanicalViewer.boot demo_world)
    [MechanicalViewer.Select ["/data/frame.mechdat"]; MechanicalViewer.SelectRows [0%nat]].

(** The viewer state with another selection. *)
Definition with_selected (files : list string) (st : ResultViewer.Sys) : ResultViewer.Sys :=
  ResultViewer.on_self
    (λ v, ResultViewer.mk files (ResultViewer.result_type v) (ResultViewer.status_var v)
            (ResultViewer.interactive_btn v) (ResultViewer.file_tree v)) st.

(** An environment whose [n]-th identifier is the decimal text of [n]. *)
Definition demo_env : ResultViewer.Env :=
  ResultViewer.mkEnv true true "/tmp" "/usr/bin/python3" (λ n, pretty n)
    (λ _, ResultViewer.WriteOk).

Definition demo_env_no_pyvista : ResultViewer.Env :=
  ResultViewer.mkEnv false true "/tmp" "/usr/bin/python3" (λ n, pretty n)
    (λ _, ResultViewer.WriteOk).

(** The name of the script a generator writes when [uuid.uuid4()] is called
    for the [i]-th time; [von_mises] tells the two generators apart. *)
Definition script_name (env : ResultViewer.Env) (von_mises : bool) (i : nat) : string :=
  OsPath.join (ResultViewer.gettempdir env)
    ((if von_mises then "von_mises_fix_" else "total_deformation_fix_") +:+
     ResultViewer.uuid4 env i +:+ ".py").

(** The scripts of the threads started so far are named after identifiers
    already drawn, each identifier used once. *)
Definition scripts_fresh (env : ResultViewer.Env) (st : ResultViewer.Sys) : Prop :=
  ∃ tags : list (bool * nat),
    ResultViewer.thread_script <$> ResultViewer.threads st =
      (λ t, script_name env t.1 t.2) <$> tags ∧
    NoDup (tags.*2) ∧
    ∀ t, t ∈ tags → (t.2 < uuid_calls (ResultViewer.world st))%nat.

(** What a step of the result viewer can do to the scripts of its threads
    and to the identifier count: start no thread (an identifier may be
    drawn for a script that could not be written), or start one thread on a
    script named after the next identifier. *)
Definition keeps (st st' : ResultViewer.Sys) : Prop :=
  ResultViewer.thread_script <$> ResultViewer.threads st' =
    ResultViewer.thread_script <$> ResultViewer.threads st ∧
  (uuid_calls (ResultViewer.world st) ≤ uuid_calls (ResultViewer.world st'))%nat.

Definition launches (env : ResultViewer.Env) (st st' : ResultViewer.Sys) : Prop :=
  ∃ k, ResultViewer.thread_script <$> ResultViewer.threads st' =
         (ResultViewer.thread_script <$> ResultViewer.threads st) ++
         [script_name env k (uuid_calls (ResultViewer.world st))] ∧
       uuid_calls (ResultViewer.world st') = S (uuid_calls (ResultViewer.world st)).

(** A launcher environment in which tkinter cannot be imported. *)
Definition demo_launch_env : Launch.Env :=
  Launch.mkEnv (Launch.mkDeps false true true) (Launch.Typed "y") (λ _, Launch.PipOk)
    "/app" "/usr/bin/python3" true Launch.GuiOk.


(** The usage line of [interactive_worker.py]. *)
Definition worker_usage : string :=
  "Usage: python interactive_worker.py <mechdat_file_path>".



(** The rows the file list shows for a selection: name and path. *)
Definition tree_of (files : list string) : list (string * string) :=
  (λ p, (OsPath.basename p, p)) <$> files.

(** The warning of [ResultViewer.open_interactive] for an empty selection. *)
Definition no_files_warning : Dialog :=
  ShowWarning "No Files" "Please select RST files first.".

(** What holds of a result viewer started in world [w], in every state it
    reaches: the launch button is enabled exactly when files are selected,
    every selected file has an accepted extension, the file list shows the
    selection, and the empty-selection warning was never shown. *)
Definition result_ui_inv (fm : FileManager.t) (w : World) (st : ResultViewer.Sys) : Prop :=
  (ResultViewer.interactive_btn (ResultViewer.self st) = true ↔
   ResultViewer.selected_files (ResultViewer.self st) ≠ []) ∧
  (∀ p, p ∈ ResultViewer.selected_files (ResultViewer.self st) →
        PyStr.lower (OsPath.splitext p).2 ∈ FileManager.supported_result_files fm) ∧
  ResultViewer.file_tree (ResultViewer.self st) =
    tree_of (ResultViewer.selected_files (ResultViewer.self st)) ∧
  ∃ shown, dialogs (ResultViewer.world st) = dialogs w ++ shown ∧
           no_files_warning ∉ shown.

(** A step that leaves the widgets and the dialogs of the result viewer
    alone (the status line may change). *)
Definition same_ui (st st' : ResultViewer.Sys) : Prop :=
  ResultViewer.selected_files (ResultViewer.self st') =
    ResultViewer.selected_files (ResultViewer.self st) ∧
  ResultViewer.interactive_btn (ResultViewer.self st') =
    ResultViewer.interactive_btn (ResultViewer.self st) ∧
  ResultViewer.file_tree (ResultViewer.self st') =
    ResultViewer.file_tree (ResultViewer.self st) ∧
  dialogs (ResultViewer.world st') = dialogs (ResultViewer.world st).

(** The two places where the mechanical viewer looks for its worker
    script: beside the module, then one directory up. *)
Definition worker_candidates (env : MechanicalViewer.Env) : string * string :=
  (OsPath.join (MechanicalViewer.current_dir env) "interactive_worker.py",
   OsPath.join (OsPath.dirname (MechanicalViewer.current_dir env)) "interactive_worker.py").




(** The path a generated script was written for. *)
Definition embedded_path (text : ScriptText) : string :=
  match text with
  | VonMisesFix file_path | TotalDeformationFix file_path => file_path
  end.

(** What holds of the files of a result viewer started in world [w]: a path
    that is not the name of a generated script holds what it held at the
    start, and a script that was not there at the start was written for a
    file with an accepted extension. *)
Definition result_fs_inv (env : ResultViewer.Env) (fm : FileManager.t) (w : World)
    (st : ResultViewer.Sys) : Prop :=
  (∀ p, (∀ k i, p ≠ script_name env k i) →
        fs (ResultViewer.world st) !! p = fs w !! p) ∧
  (∀ p text, fs (ResultViewer.world st) !! p = Some (Script text) →
             fs w !! p = Some (Script text) ∨
             PyStr.lower (OsPath.splitext (embedded_path text)).2 ∈
               FileManager.supported_result_files fm).

(** The removal in the [finally] block of the thread an action ends, if the
    action ends one, succeeds. *)
Definition removal_ok (a : ResultViewer.Action) : Prop :=
  match a with
  | ResultViewer.SpawnFail _ _ r | ResultViewer.ReadFail _ _ _ r
  | ResultViewer.ChildExit _ _ _ r => r = ResultViewer.RemoveOk
  | _ => True
  end.

(** The script of a thread exists as long as the thread has not finished,
    and, when [removals_ok] holds, is gone once it has. *)
Definition script_life (removals_ok : Prop) (st : ResultViewer.Sys) : Prop :=
  ∀ i th, ResultViewer.threads st !! i = Some th →
    (removals_ok → ResultViewer.thread_stage th = ResultViewer.ThreadDone →
     fs (ResultViewer.world st) !! ResultViewer.thread_script th = None) ∧
    (ResultViewer.thread_stage th ≠ ResultViewer.ThreadDone →
     ∃ text, fs (ResultViewer.world st) !! ResultViewer.thread_script th =
             Some (Script text)).

(** ** The validator *)

Section Validator.
Context (w : World) (exts : list string).

Lemma validate_step_accept acc p :
  acceptable w exts p →
  FileManager.validate_step w exts acc p = (acc.1 ++ [p], acc.2).
Proof.
  intros [Hex Hext]. destruct acc as [v i]. unfold FileManager.validate_step, path_exists.
  rewrite bool_decide_eq_true_2 by done.
  cbn zeta. by rewrite bool_decide_eq_true_2.
Qed.

Lemma validate_step_reject acc p :
  ¬ acceptable w exts p →
  FileManager.validate_step w exts acc p = (acc.1, acc.2 ++ [p]).
Proof.
  intros Hno. destruct acc as [v i]. unfold FileManager.validate_step, path_exists.
  case_bool_decide as Hex; [|done].
  cbn zeta. case_bool_decide as Hext; [|done].
  destruct Hno. by split.
Qed.

Lemma validate_fold acc files :
  foldl (FileManager.validate_step w exts) acc files =
  (acc.1 ++ filter (acceptable w exts) files,
   acc.2 ++ filter (λ p, ¬ acceptable w exts p) files).
Proof.
  revert acc. induction files as [|p files IH]; intros acc.
  - cbn. rewrite !app_nil_r. by destruct acc.
  - cbn [foldl]. rewrite IH. destruct (decide (acceptable w exts p)) as [Hok|Hno].
    + rewrite validate_step_accept by done. cbn [fst snd].
      rewrite filter_cons_True by done.
      rewrite (filter_cons_False (λ p, ¬ acceptable w exts p)) by tauto.
      by rewrite <- app_assoc.
    + rewrite validate_step_reject by done. cbn [fst snd].
      rewrite filter_cons_False by done.
      rewrite (filter_cons_True (λ p, ¬ acceptable w exts p)) by done.
      by rewrite <- app_assoc.
Qed.

Lemma validate_loop_filter files :
  FileManager.validate_loop w files exts =
  (filter (acceptable w exts) files, filter (λ p, ¬ acceptable w exts p) files).
Proof. unfold FileManager.validate_loop. by rewrite validate_fold. Qed.

Lemma validate_files_returns files :
  (FileManager.validate_files files exts w).1 = filter (acceptable w exts) files.
Proof.
  unfold FileManager.validate_files. rewrite validate_loop_filter.
  by destruct (filter (λ p, ¬ acceptable w exts p) files).
Qed.

End Validator.

(** ** Strings *)

Lemma append_cons a (s t : string) : String a s +:+ t = String a (s +:+ t).
Proof. reflexivity. Qed.

Lemma append_nil_l (s : string) : "" +:+ s = s.
Proof. reflexivity. Qed.

Lemma append_nil_r (s : string) : s +:+ "" = s.
Proof. induction s as [|a s IH]; [done|]. by rewrite append_cons, IH. Qed.

Lemma append_assoc (s t u : string) : (s +:+ t) +:+ u = s +:+ (t +:+ u).
Proof. induction s as [|a s IH]; [done|]. by rewrite !append_cons, IH. Qed.

Lemma append_inj_l (s t u : string) : s +:+ t = s +:+ u → t = u.
Proof. induction s as [|a s IH]; [done|]. rewrite !append_cons. intros [=]. auto. Qed.

Lemma append_length (s t : string) :
  String.length (s +:+ t) = (String.length s + String.length t)%nat.
Proof. induction s as [|a s IH]; [done|]. rewrite append_cons. cbn. by rewrite IH. Qed.

Lemma append_inj_r (s t u : string) : s +:+ u = t +:+ u → s = t.
Proof.
  revert t. induction s as [|a s IH]; intros [|b t] H; [done| | |].
  - apply (f_equal String.length) in H.
    rewrite append_nil_l, append_cons in H. cbn in H. rewrite append_length in H. lia.
  - apply (f_equal String.length) in H.
    rewrite append_nil_l, append_cons in H. cbn in H. rewrite append_length in H. lia.
  - rewrite !append_cons in H. injection H as -> H. f_equal. by apply IH.
Qed.

Lemma occurs_in_refl (s : string) : PyStr.occurs_in s s.
Proof. exists "", "". by rewrite append_nil_r. Qed.

Lemma occurs_in_app_l (x s t : string) : PyStr.occurs_in x s → PyStr.occurs_in x (s +:+ t).
Proof.
  intros (pre & post & ->). exists pre, (post +:+ t).
  by rewrite !append_assoc.
Qed.

Lemma occurs_in_app_r (x s t : string) : PyStr.occurs_in x t → PyStr.occurs_in x (s +:+ t).
Proof.
  intros (pre & post & ->). exists (s +:+ pre), post.
  by rewrite !append_assoc.
Qed.

Lemma occurs_in_join (sep x : string) (parts : list string) :
  x ∈ parts → PyStr.occurs_in x (PyStr.join sep parts).
Proof.
  induction parts as [|y [|z rest] IH]; intros Hin.
  - by apply elem_of_nil in Hin.
  - apply list_elem_of_singleton in Hin as ->. apply occurs_in_refl.
  - apply elem_of_cons in Hin as [->|Hin].
    + change (PyStr.occurs_in y (y +:+ sep +:+ PyStr.join sep (z :: rest))).
      apply occurs_in_app_l, occurs_in_refl.
    + change (PyStr.occurs_in x (y +:+ sep +:+ PyStr.join sep (z :: rest))).
      by apply occurs_in_app_r, occurs_in_app_r, IH.
Qed.

Lemma acceptable_exists (w : World) (exts : list string) (p : string) :
  acceptable w exts p ↔
  path_exists w p = true ∧ PyStr.lower (OsPath.splitext p).2 ∈ exts.
Proof. unfold acceptable, path_exists. by rewrite bool_decide_eq_true. Qed.

(** C1.  A path is in the list returned by [validate_files] exactly when it
    is one of the input paths, it exists, and its final extension,
    lowercased, is one of the accepted extensions; it is in the rejected
    list exactly when it is one of the input paths and fails one of the two
    checks. *)
Theorem validate_files_accepts_iff (w : World) (files exts : list string) (p : string) :
  (p ∈ (FileManager.validate_files files exts w).1 ↔
     p ∈ files ∧
     path_exists w p = true ∧ PyStr.lower (OsPath.splitext p).2 ∈ exts)
  ∧
  (p ∈ (FileManager.validate_loop w files exts).2 ↔
     p ∈ files ∧
     ¬ (path_exists w p = true ∧ PyStr.lower (OsPath.splitext p).2 ∈ exts)).
Proof.
  rewrite validate_files_returns, validate_loop_filter. cbn [snd].
  rewrite !list_elem_of_filter, acceptable_exists. tauto.
Qed.

(** C2.  The accepted and the rejected list partition the input: their
    lengths add up to the length of the input, no path is in both, together
    they are a rearrangement of the input, and every input path is in
    exactly one of them. *)
Theorem validate_files_partition (w : World) (files exts : list string) :
  let valid := (FileManager.validate_files files exts w).1 in
  let invalid := (FileManager.validate_loop w files exts).2 in
  (length valid + length invalid = length files)%nat ∧
  (∀ p, p ∈ valid → p ∈ invalid → False) ∧
  valid ++ invalid ≡ₚ files ∧
  (∀ p, p ∈ files → (p ∈ valid ∧ p ∉ invalid) ∨ (p ∈ invalid ∧ p ∉ valid)).
Proof.
  cbv zeta. rewrite validate_files_returns, validate_loop_filter. cbn [snd].
  assert (Hperm := filter_app_complement (acceptable w exts) files).
  split_and!.
  - rewrite <- (length_app (filter _ files)). by rewrite Hperm.
  - intros p [H1 _]%list_elem_of_filter [H2 _]%list_elem_of_filter. done.
  - done.
  - intros p Hp. rewrite !list_elem_of_filter.
    destruct (decide (acceptable w exts p)); tauto.
Qed.

(** C7.  A call of [validate_files] shows no dialog when nothing is
    rejected, and otherwise exactly one warning, whose text is the heading
    followed by the basenames of all rejected paths, so that every rejected
    basename occurs in it; nothing else in the world changes. *)
Theorem validate_files_single_warning (w : World) (files exts : list string) :
  let invalid := (FileManager.validate_loop w files exts).2 in
  let w' := (FileManager.validate_files files exts w).2 in
  fs w' = fs w ∧ console w' = console w ∧
  dialogs w' =
    dialogs w ++
    (match invalid with
     | [] => []
     | _ :: _ => [ShowWarning "Invalid Files" (FileManager.warning_text invalid)]
     end) ∧
  (∀ p, p ∈ invalid →
     PyStr.occurs_in (OsPath.basename p) (FileManager.warning_text invalid)).
Proof.
  cbv zeta. unfold FileManager.validate_files.
  destruct (FileManager.validate_loop w files exts) as [valid invalid]. cbn [snd].
  split_and!.
  - by destruct invalid.
  - by destruct invalid.
  - destruct invalid; [by rewrite app_nil_r | done].
  - intros p Hp. unfold FileManager.warning_text.
    apply occurs_in_app_r, occurs_in_join, list_elem_of_fmap. eauto.
Qed.

Lemma is_prefix_spec (x s : string) :
  is_prefix x s = true ↔ ∃ post, s = x +:+ post.
Proof.
  revert s. induction x as [|a x IH]; intros s.
  - split; [intros _; by exists s | done].
  - destruct s as [|b s]; cbn [is_prefix].
    + split; [done | intros [post H]; by rewrite append_cons in H].
    + rewrite andb_true_iff, Ascii.eqb_eq, IH. split.
      * intros [-> [post ->]]. by exists post.
      * intros [post H]. rewrite append_cons in H. injection H as -> ->. eauto.
Qed.

Lemma occursb_spec (x s : string) : occursb x s = true ↔ PyStr.occurs_in x s.
Proof.
  unfold PyStr.occurs_in. induction s as [|b s IH]; cbn [occursb].
  - rewrite orb_false_r, is_prefix_spec. split.
    + intros [post H]. exists "", post. by rewrite append_nil_l.
    + intros (pre & post & H). destruct pre as [|c pre]; [|by rewrite append_cons in H].
      rewrite append_nil_l in H. eauto.
  - rewrite orb_true_iff, is_prefix_spec, IH. split.
    + intros [[post H]|(pre & post & H)].
      * exists "", post. by rewrite append_nil_l.
      * exists (String b pre), post. by rewrite append_cons, H.
    + intros (pre & post & H). destruct pre as [|c pre].
      * left. rewrite append_nil_l in H. eauto.
      * right. rewrite append_cons in H. injection H as -> ->. eauto.
Qed.

Lemma not_occurs_in (x s : string) : occursb x s = false → ¬ PyStr.occurs_in x s.
Proof. intros H Hin. apply occursb_spec in Hin. congruence. Qed.

(** ** The result viewer's worker thread *)

Section ResultThread.
Import ResultViewer.

Lemma echo_lines_frame lines w :
  fs (echo_lines lines w) = fs w ∧ dialogs (echo_lines lines w) = dialogs w.
Proof.
  unfold echo_lines. revert w. induction lines as [|l lines IH]; intros w; [done|].
  cbn [foldl]. destruct (IH (print ("SCRIPT OUTPUT: " +:+ PyStr.strip l) w)) as [-> ->].
  done.
Qed.

Lemma run_in_thread_body script_path c r st :
  run_in_thread script_path c r st = cleanup script_path r (body script_path c st).
Proof. by destruct c. Qed.

Lemma on_return_code_frame code st :
  fs (world (on_return_code code st)) = fs (world st) ∧
  dialogs (world (on_return_code code st)) = dialogs (world st) ∧
  threads (on_return_code code st) = threads st.
Proof. unfold on_return_code. by destruct (code =? 0). Qed.

Lemma body_frame script_path c st :
  fs (world (body script_path c st)) = fs (world st) ∧
  dialogs (world (body script_path c st)) = dialogs (world st) ∧
  threads (body script_path c st) = threads st.
Proof.
  destruct c as [e|lines e|lines code]; cbn [body].
  - done.
  - cbn. destruct (echo_lines_frame lines
      (print ("DEBUG: Running script: " +:+ script_path) (world st))) as [-> ->].
    done.
  - destruct (on_return_code_frame code
      (on_world (echo_lines lines) (thread_begin script_path st))) as (-> & -> & ->).
    cbn. destruct (echo_lines_frame lines
      (print ("DEBUG: Running script: " +:+ script_path) (world st))) as [-> ->].
    done.
Qed.

Lemma cleanup_ok_removes script_path st :
  path_exists (world (cleanup script_path RemoveOk st)) script_path = false.
Proof.
  unfold cleanup. destruct (path_exists (world st) script_path) eqn:Hex; [|done].
  unfold path_exists. cbn. rewrite lookup_delete_eq.
  apply bool_decide_eq_false_2. by intros [? ?].
Qed.

End ResultThread.

(** C4.  Whatever the child did (it could not be started, reading its
    output failed, or it exited with any code), the thread body ends by
    removing the script: after a removal that succeeds the script does not
    exist.  A removal that fails changes nothing but the console: the viewer
    state, the dialogs and the started threads are those of the run whose
    removal succeeds, the file is left in place, and the console differs
    from that run only in its last line. *)
Theorem run_script_cleans_up (script_path : string) (c : ResultViewer.ChildRun)
    (st : ResultViewer.Sys) :
  let ok := ResultViewer.run_in_thread script_path c ResultViewer.RemoveOk st in
  path_exists (ResultViewer.world ok) script_path = false ∧
  ∀ e : string,
    let ko := ResultViewer.run_in_thread script_path c (ResultViewer.RemoveRaises e) st in
    ResultViewer.self ko = ResultViewer.self ok ∧
    dialogs (ResultViewer.world ko) = dialogs (ResultViewer.world ok) ∧
    ResultViewer.threads ko = ResultViewer.threads ok ∧
    fs (ResultViewer.world ko) = fs (ResultViewer.world st) ∧
    ∃ pre,
      console (ResultViewer.world ok) =
        pre ++ (if path_exists (ResultViewer.world st) script_path
                then [Stdout ("DEBUG: Cleaned up script file: " +:+ script_path)]
                else []) ∧
      console (ResultViewer.world ko) =
        pre ++ (if path_exists (ResultViewer.world st) script_path
                then [Stdout ("DEBUG: Cleanup error: " +:+ e)]
                else []).
Proof.
  cbv zeta. rewrite run_in_thread_body. split; [apply cleanup_ok_removes|].
  intros e. rewrite run_in_thread_body.
  destruct (body_frame script_path c st) as (Hfs & Hdlg & Hth).
  assert (Hex : path_exists (ResultViewer.world (body script_path c st)) script_path
                = path_exists (ResultViewer.world st) script_path).
  { unfold path_exists. by rewrite Hfs. }
  unfold ResultViewer.cleanup. rewrite Hex.
  destruct (path_exists (ResultViewer.world st) script_path).
  - cbn. split_and!; try done. by eexists.
  - split_and!; try done. eexists. by rewrite !app_nil_r.
Qed.

(** ** Completion reports *)

(** C3, as stated, fails.  A result script that prints [boom] and exits with
    code 1 leaves the fixed status text and no dialog: the captured output
    is not in what the user is shown.  A mechanical worker that exits with
    code 1 after writing to both streams is reported with the standard-error
    text alone: the standard-output text is not in the dialog. *)
Lemma failure_report_drops_output :
  let st := ResultViewer.run_in_thread "/tmp/von_mises_fix_0.py"
              (ResultViewer.Exits ["boom"] 1) ResultViewer.RemoveOk
              (ResultViewer.boot demo_world) in
  let mt := MechanicalViewer.run demo_mech_env FileManager.init
              (MechanicalViewer.boot demo_world)
              [MechanicalViewer.Select ["/data/frame.mechdat"];
               MechanicalViewer.SelectRows [0%nat];
               MechanicalViewer.ClickView;
               MechanicalViewer.Spawn 0;
               MechanicalViewer.ChildDone 0
                 (MechanicalViewer.Completed 1 "Error: license" "Traceback");
               MechanicalViewer.Idle] in
  (ResultViewer.status_var (ResultViewer.self st) = "Error in 3D visualization" ∧
   dialogs (ResultViewer.world st) = [] ∧
   ¬ PyStr.occurs_in "boom" (ResultViewer.status_var (ResultViewer.self st)))
  ∧
  (dialog_text <$> dialogs (MechanicalViewer.world mt) =
     ["Failed to launch PyANSYS viewer:\n\nTraceback"] ∧
   ¬ PyStr.occurs_in "Error: license"
       "Failed to launch PyANSYS viewer:\n\nTraceback").
Proof.
  cbv zeta. split_and!.
  - vm_compute. reflexivity.
  - vm_compute. reflexivity.
  - apply not_occurs_in. vm_compute. reflexivity.
  - vm_compute. reflexivity.
  - apply not_occurs_in. vm_compute. reflexivity.
Qed.

(** C3, amended.  Both viewers report success exactly when the exit code is
    zero.  On another exit code the result viewer sets the fixed status text
    and shows no dialog; the mechanical viewer schedules [viewer_failed]
    with the captured standard error, or with the captured standard output
    when standard error is empty, and that text follows the heading of the
    error dialog. *)
Theorem completion_report :
  (∀ (script_path : string) (lines : list string) (return_code : Z)
     (r : ResultViewer.RemoveRun) (st : ResultViewer.Sys),
     let st' := ResultViewer.thread_end script_path
                  (ResultViewer.Exits lines return_code) r st in
     ResultViewer.status_var (ResultViewer.self st') =
       (if return_code =? 0 then "3D visualization completed successfully"
        else "Error in 3D visualization") ∧
     (ResultViewer.status_var (ResultViewer.self st') =
        "3D visualization completed successfully" ↔ return_code = 0) ∧
     dialogs (ResultViewer.world st') = dialogs (ResultViewer.world st))
  ∧
  (∀ (returncode : Z) (stdout stderr : string) (st st2 : MechanicalViewer.Sys),
     let diagnostic := if String.eqb stderr "" then stdout else stderr in
     let cb := if returncode =? 0 then MechanicalViewer.CallSuccess
               else MechanicalViewer.CallFailed diagnostic in
     let shown := MechanicalViewer.dispatch cb st2 in
     MechanicalViewer.pending
       (MechanicalViewer.worker_end
          (MechanicalViewer.Completed returncode stdout stderr) st) =
       MechanicalViewer.pending st ++ [cb] ∧
     dialogs (MechanicalViewer.world shown) =
       dialogs (MechanicalViewer.world st2) ++
       [if returncode =? 0
        then ShowInfo "Success" "PyANSYS Mechanical viewer completed successfully!"
        else ShowError "Viewer Error"
               ("Failed to launch PyANSYS viewer:\n\n" +:+ diagnostic)] ∧
     (MechanicalViewer.status_var (MechanicalViewer.self shown) =
        "Interactive 3D viewer completed successfully" ↔ returncode = 0)).
Proof.
  split.
  - intros script_path lines return_code r st. cbv zeta.
    cbn [ResultViewer.thread_end]. unfold ResultViewer.cleanup, ResultViewer.on_return_code.
    destruct (Z.eqb_spec return_code 0) as [->|Hne].
    + destruct (path_exists _ _), r; cbn;
        (split_and!; [done | done | apply echo_lines_frame]).
    + destruct (path_exists _ _), r; cbn;
        (split_and!; [done | split; [discriminate | done] | apply echo_lines_frame]).
  - intros returncode stdout stderr st st2. cbv zeta.
    unfold MechanicalViewer.worker_end, MechanicalViewer.error_msg.
    destruct (Z.eqb_spec returncode 0) as [->|Hne]; cbn.
    + done.
    + split_and!; [done | done | split; [discriminate | done]].
Qed.

(** ** Script names *)

Lemma join_inj_r (a b b' : string) :
  PyStr.startswith OsPath.sep b = false →
  PyStr.startswith OsPath.sep b' = false →
  OsPath.join a b = OsPath.join a b' → b = b'.
Proof.
  unfold OsPath.join. intros -> ->.
  destruct (String.eqb a "" || PyStr.endswith OsPath.sep a).
  - apply append_inj_l.
  - intros H%append_inj_l. by apply append_inj_l in H.
Qed.

Lemma script_name_inj env k k' i j :
  script_name env k i = script_name env k' j →
  k = k' ∧ ResultViewer.uuid4 env i = ResultViewer.uuid4 env j.
Proof.
  unfold script_name. intros H%join_inj_r.
  - destruct k, k'; try discriminate H.
    + split; [done|]. apply append_inj_l in H. by apply append_inj_r in H.
    + split; [done|]. apply append_inj_l in H. by apply append_inj_r in H.
  - by destruct k.
  - by destruct k'.
Qed.

Section ResultSteps.
Import ResultViewer.
Context (env : Env) (fm : FileManager.t).

Lemma validate_files_uuid files exts w :
  uuid_calls (FileManager.validate_files files exts w).2 = uuid_calls w.
Proof.
  unfold FileManager.validate_files.
  destruct (FileManager.validate_loop w files exts) as [v [|x i]]; done.
Qed.

Lemma select_files_keeps chosen st : keeps st (select_files fm chosen st).
Proof.
  unfold select_files, FileManager.select_result_files.
  pose proof (validate_files_uuid chosen (FileManager.supported_result_files fm) (world st)) as Hu.
  destruct (FileManager.validate_files chosen _ (world st)) as [[|f files] w];
    (split; [done | cbn in *; lia]).
Qed.

Lemma echo_lines_uuid lines w : uuid_calls (echo_lines lines w) = uuid_calls w.
Proof.
  unfold echo_lines. revert w. induction lines as [|l lines IH]; intros w; [done|].
  cbn [foldl]. by rewrite IH.
Qed.

Lemma cleanup_keeps script_path r st : keeps st (cleanup script_path r st).
Proof. unfold cleanup. destruct (path_exists _ _), r; (split; [done | cbn; lia]). Qed.

Lemma keeps_trans st1 st2 st3 : keeps st1 st2 → keeps st2 st3 → keeps st1 st3.
Proof. intros [H1 H2] [H3 H4]. split; [congruence | lia]. Qed.

Lemma on_exception_keeps e st : keeps st (on_exception e st).
Proof. split; [done | cbn; lia]. Qed.

Lemma on_return_code_keeps code st : keeps st (on_return_code code st).
Proof. unfold on_return_code. destruct (code =? 0); (split; [done | cbn; lia]). Qed.

Lemma echo_keeps lines st : keeps st (on_world (echo_lines lines) st).
Proof. split; [done | cbn; rewrite echo_lines_uuid; lia]. Qed.

Lemma thread_end_keeps script_path c r st : keeps st (thread_end script_path c r st).
Proof.
  destruct c as [e|lines e|lines code]; cbn [thread_end].
  - eapply keeps_trans; [apply on_exception_keeps | apply cleanup_keeps].
  - eapply keeps_trans; [apply echo_keeps|].
    eapply keeps_trans; [apply on_exception_keeps | apply cleanup_keeps].
  - eapply keeps_trans; [apply echo_keeps|].
    eapply keeps_trans; [apply on_return_code_keeps | apply cleanup_keeps].
Qed.

Lemma fmap_alter_same {A B : Type} (f : A → B) (g : A → A) (i : nat) (l : list A) :
  (∀ x, f (g x) = f x) → f <$> alter g i l = f <$> l.
Proof.
  intros Hfg. revert i. induction l as [|x l IH]; intros [|i]; [done..| |].
  - cbn. by rewrite Hfg.
  - cbn. f_equal. apply IH.
Qed.

Lemma move_scripts i s st :
  thread_script <$> threads (move i s st) = thread_script <$> threads st.
Proof. cbn. by apply fmap_alter_same. Qed.

Lemma open_interactive_cases st :
  keeps st (open_interactive env st) ∨ launches env st (open_interactive env st).
Proof.
  unfold open_interactive.
  destruct (selected_files (self st)) as [|f rest]; [left; split; [done | cbn; lia]|].
  destruct (negb _); [left; split; [done | cbn; lia]|].
  destruct (String.eqb (result_type (self st)) "von_mises");
    [unfold create_von_mises_script | unfold create_total_deformation_script];
    cbn [world on_self]; destruct (script_write env _) as [|e|e];
    try (left; split; cbn; [done | lia]); right.
  - exists true. cbn. by rewrite fmap_app.
  - exists false. cbn. by rewrite fmap_app.
Qed.

Lemma step_cases st a :
  keeps st (step env fm st a) ∨ launches env st (step env fm st a).
Proof.
  destruct a as [chosen|v| |i|i e r|i lines e r|i lines code r]; cbn [step].
  - left. apply select_files_keeps.
  - by left.
  - destruct (interactive_btn (self st)); [apply open_interactive_cases | by left].
  - left. destruct (at_stage i ThreadStarted st) as [th|]; [|done].
    split; [by rewrite move_scripts | done].
  - left. destruct (at_stage i ThreadStarted st) as [th|]; [|done].
    destruct (thread_end_keeps (thread_script th) (PopenRaises e) r
                (thread_begin (thread_script th) st)) as [Ht Hu].
    split; [by rewrite move_scripts | done].
  - left. destruct (at_stage i ChildRunning st) as [th|]; [|done].
    destruct (thread_end_keeps (thread_script th) (ReadRaises lines e) r st) as [Ht Hu].
    split; [by rewrite move_scripts | done].
  - left. destruct (at_stage i ChildRunning st) as [th|]; [|done].
    destruct (thread_end_keeps (thread_script th) (Exits lines code) r st) as [Ht Hu].
    split; [by rewrite move_scripts | done].
Qed.

Lemma step_scripts_fresh st a :
  scripts_fresh env st → scripts_fresh env (step env fm st a).
Proof.
  intros (tags & Hs & Hnd & Hlt).
  destruct (step_cases st a) as [[Ht Hu]|(k & Ht & Hu)].
  - exists tags. rewrite Ht. split_and!; [done..|].
    intros t Hin. apply Hlt in Hin. lia.
  - exists (tags ++ [(k, uuid_calls (world st))]). split_and!.
    + by rewrite Ht, Hs, fmap_app.
    + rewrite fmap_app. apply NoDup_app. split_and!; [done| |apply NoDup_singleton].
      intros n Hn Hn'. apply list_elem_of_singleton in Hn' as ->.
      apply list_elem_of_fmap in Hn as (t & Heq & Ht'). apply Hlt in Ht'. cbn in Heq. lia.
    + intros t [Hin|Hin%list_elem_of_singleton]%elem_of_app.
      * rewrite Hu. apply Hlt in Hin. lia.
      * subst t. rewrite Hu. cbn. lia.
Qed.

Lemma run_scripts_fresh st acts :
  scripts_fresh env st → scripts_fresh env (run env fm st acts).
Proof.
  unfold run. revert st. induction acts as [|a acts IH]; intros st H; [done|].
  cbn [foldl]. by apply IH, step_scripts_fresh.
Qed.

Lemma scripts_fresh_NoDup st :
  Inj (=) (=) (uuid4 env) →
  scripts_fresh env st → NoDup (thread_script <$> threads st).
Proof.
  intros Hinj (tags & -> & Hnd & _).
  apply NoDup_fmap_2_strong; [|by apply NoDup_fmap_1 in Hnd].
  intros [k i] [k' j] _ _ H. cbn in H.
  apply script_name_inj in H as [-> Hu%Hinj]. by subst.
Qed.

End ResultSteps.

(** C5.  When [uuid.uuid4()] never returns the same value twice, the scripts
    of the threads a viewer has started, in any run from its initial state,
    are pairwise distinct: no launch uses the script path of another. *)
Theorem launches_use_distinct_scripts (env : ResultViewer.Env) (fm : FileManager.t)
    (w : World) (acts : list ResultViewer.Action) :
  Inj (=) (=) (ResultViewer.uuid4 env) →
  NoDup (ResultViewer.thread_script <$>
         ResultViewer.threads (ResultViewer.run env fm (ResultViewer.boot w) acts)).
Proof.
  intros Hinj. apply (scripts_fresh_NoDup env); [done|].
  apply run_scripts_fresh. exists []. split_and!; [done | constructor | ].
  intros t Ht. by apply elem_of_nil in Ht.
Qed.

(** Two launches in a row, the first one failing, on scripts that differ. *)
Lemma launches_use_distinct_scripts_witness :
  NoDup (ResultViewer.thread_script <$>
         ResultViewer.threads
           (ResultViewer.run demo_env FileManager.init (ResultViewer.boot demo_world)
              [ResultViewer.Select ["/data/beam.rst"];
               ResultViewer.ClickOpen;
               ResultViewer.Spawn 0;
               ResultViewer.ChildExit 0 ["General error: boom"] 1 ResultViewer.RemoveOk;
               ResultViewer.ClickOpen])).
Proof.
  apply (launches_use_distinct_scripts demo_env). exact pretty_nat_inj.
Defined.

Example two_launches_scripts :
  ResultViewer.thread_script <$>
    ResultViewer.threads
      (ResultViewer.run demo_env FileManager.init (ResultViewer.boot demo_world)
         [ResultViewer.Select ["/data/beam.rst"];
          ResultViewer.ClickOpen;
          ResultViewer.Spawn 0;
          ResultViewer.ChildExit 0 ["General error: boom"] 1 ResultViewer.RemoveOk;
          ResultViewer.ClickOpen])
  = ["/tmp/von_mises_fix_0.py"; "/tmp/von_mises_fix_1.py"].
Proof. vm_compute. reflexivity. Qed.

(** ** Which file is launched *)

Lemma open_interactive_launch (env : ResultViewer.Env) (st : ResultViewer.Sys)
    (first : string) (rest : list string) :
  ResultViewer.selected_files (ResultViewer.self st) = first :: rest →
  ResultViewer.pyvista_available env && ResultViewer.dpf_available env = true →
  ResultViewer.script_write env (uuid_calls (ResultViewer.world st)) =
    ResultViewer.WriteOk →
  let von_mises := String.eqb (ResultViewer.result_type (ResultViewer.self st)) "von_mises" in
  let script_path := script_name env von_mises (uuid_calls (ResultViewer.world st)) in
  ResultViewer.open_interactive env st =
    ResultViewer.mkSys
      (ResultViewer.set_status "Launching 3D interactive viewer..." (ResultViewer.self st))
      (write_file script_path
         (Script (if von_mises then VonMisesFix first else TotalDeformationFix first))
         (next_uuid (ResultViewer.world st)))
      (ResultViewer.threads st ++
       [ResultViewer.mkThread script_path [ResultViewer.executable env; script_path]
          ResultViewer.ThreadStarted]).
Proof.
  intros Hsel Hdeps Hw. cbv zeta. unfold ResultViewer.open_interactive.
  rewrite Hsel, Hdeps. cbn [negb].
  destruct (String.eqb (ResultViewer.result_type (ResultViewer.self st)) "von_mises");
    [unfold ResultViewer.create_von_mises_script
    |unfold ResultViewer.create_total_deformation_script];
    cbn [ResultViewer.world ResultViewer.on_self]; by rewrite Hw.
Qed.

(** A missing dependency: the error dialog and nothing else. *)
Lemma open_interactive_missing (env : ResultViewer.Env) (st : ResultViewer.Sys)
    (first : string) (rest : list string) :
  ResultViewer.selected_files (ResultViewer.self st) = first :: rest →
  ResultViewer.pyvista_available env && ResultViewer.dpf_available env = false →
  ResultViewer.open_interactive env st =
    ResultViewer.on_world
      (messagebox (ShowError "Missing Dependencies"
         "PyVista and DPF Post are required.\n\nInstall with: pip install pyvista ansys-dpf-post"))
      st.
Proof.
  intros Hsel Hdeps. unfold ResultViewer.open_interactive. by rewrite Hsel, Hdeps.
Qed.

(** The script cannot be written: the exception leaves the handler, whose
    traceback is printed; no thread is started. *)
Lemma open_interactive_unwritten (env : ResultViewer.Env) (st : ResultViewer.Sys)
    (first : string) (rest : list string) :
  ResultViewer.selected_files (ResultViewer.self st) = first :: rest →
  ResultViewer.pyvista_available env && ResultViewer.dpf_available env = true →
  ResultViewer.script_write env (uuid_calls (ResultViewer.world st)) ≠
    ResultViewer.WriteOk →
  let von_mises := String.eqb (ResultViewer.result_type (ResultViewer.self st)) "von_mises" in
  let script_path := script_name env von_mises (uuid_calls (ResultViewer.world st)) in
  ∃ e w,
    ResultViewer.open_interactive env st =
      ResultViewer.mkSys
        (ResultViewer.set_status "Launching 3D interactive viewer..." (ResultViewer.self st))
        (print_exc e w) (ResultViewer.threads st) ∧
    (w = next_uuid (ResultViewer.world st) ∨
     w = write_file script_path Opaque (next_uuid (ResultViewer.world st))).
Proof.
  intros Hsel Hdeps Hw. cbv zeta. unfold ResultViewer.open_interactive.
  rewrite Hsel, Hdeps. cbn [negb].
  destruct (String.eqb (ResultViewer.result_type (ResultViewer.self st)) "von_mises");
    [unfold ResultViewer.create_von_mises_script
    |unfold ResultViewer.create_total_deformation_script];
    cbn [ResultViewer.world ResultViewer.on_self];
    destruct (ResultViewer.script_write env _) as [|e|e]; try done;
    eexists _, _; (split; [reflexivity|]); auto.
Qed.

(** C10, as stated, fails: with a file selected but PyVista missing, the
    trigger shows an error dialog, writes no script and starts no thread. *)
Lemma open_interactive_needs_dependencies :
  let st := ResultViewer.open_interactive demo_env_no_pyvista demo_selected in
  ResultViewer.selected_files (ResultViewer.self demo_selected) =
    ["/data/beam.rst"; "/data/plate.rst"] ∧
  ResultViewer.threads st = [] ∧
  fs (ResultViewer.world st) = fs demo_world ∧
  dialog_text <$> dialogs (ResultViewer.world st) =
    ["PyVista and DPF Post are required.\n\nInstall with: pip install pyvista ansys-dpf-post"].
Proof. cbv zeta. split_and!; vm_compute; reflexivity. Qed.

(** C10, amended.  For a result viewer whose selection is not empty:
    when both dependencies are available and the script file can be
    written, the trigger writes one script, for the first selected file,
    and starts one thread that runs it; the rest of the selection has no
    influence on the scripts, the files or the threads, and the selection
    is left as it was.  When a dependency is missing, in any environment,
    the trigger shows the error dialog and does nothing else: no thread, no
    file, no identifier drawn, the viewer's fields as they were.  When the
    script file cannot be written, the exception leaves the handler: no
    thread is started, no script text is written and the selection is left
    as it was. *)
Theorem open_interactive_uses_first_file :
  (∀ (env : ResultViewer.Env) (st : ResultViewer.Sys) (first : string)
     (rest : list string),
     ResultViewer.selected_files (ResultViewer.self st) = first :: rest →
     ResultViewer.pyvista_available env && ResultViewer.dpf_available env = true →
     ResultViewer.script_write env (uuid_calls (ResultViewer.world st)) =
       ResultViewer.WriteOk →
     let st' := ResultViewer.open_interactive env st in
     let von_mises :=
       String.eqb (ResultViewer.result_type (ResultViewer.self st)) "von_mises" in
     let script_path := script_name env von_mises (uuid_calls (ResultViewer.world st)) in
     ResultViewer.threads st' =
       ResultViewer.threads st ++
       [ResultViewer.mkThread script_path [ResultViewer.executable env; script_path]
          ResultViewer.ThreadStarted] ∧
     fs (ResultViewer.world st') =
       <[script_path := Script (if von_mises then VonMisesFix first
                                else TotalDeformationFix first)]>
         (fs (ResultViewer.world st)) ∧
     ResultViewer.selected_files (ResultViewer.self st') = first :: rest ∧
     ∀ rest' : list string,
       let other := ResultViewer.open_interactive env (with_selected (first :: rest') st) in
       ResultViewer.threads other = ResultViewer.threads st' ∧
       ResultViewer.world other = ResultViewer.world st')
  ∧
  (∀ (env : ResultViewer.Env) (st : ResultViewer.Sys) (first : string)
     (rest : list string),
     ResultViewer.selected_files (ResultViewer.self st) = first :: rest →
     ResultViewer.pyvista_available env && ResultViewer.dpf_available env = false →
     let st' := ResultViewer.open_interactive env st in
     ResultViewer.threads st' = ResultViewer.threads st ∧
     fs (ResultViewer.world st') = fs (ResultViewer.world st) ∧
     uuid_calls (ResultViewer.world st') = uuid_calls (ResultViewer.world st) ∧
     ResultViewer.self st' = ResultViewer.self st ∧
     dialogs (ResultViewer.world st') =
       dialogs (ResultViewer.world st) ++
       [ShowError "Missing Dependencies"
          "PyVista and DPF Post are required.\n\nInstall with: pip install pyvista ansys-dpf-post"])
  ∧
  (∀ (env : ResultViewer.Env) (st : ResultViewer.Sys) (first : string)
     (rest : list string),
     ResultViewer.selected_files (ResultViewer.self st) = first :: rest →
     ResultViewer.pyvista_available env && ResultViewer.dpf_available env = true →
     ResultViewer.script_write env (uuid_calls (ResultViewer.world st)) ≠
       ResultViewer.WriteOk →
     let st' := ResultViewer.open_interactive env st in
     ResultViewer.threads st' = ResultViewer.threads st ∧
     ResultViewer.selected_files (ResultViewer.self st') = first :: rest ∧
     dialogs (ResultViewer.world st') = dialogs (ResultViewer.world st) ∧
     (∃ e, console (ResultViewer.world st') =
             console (ResultViewer.world st) ++ [Traceback e]) ∧
     ∀ p text, fs (ResultViewer.world st') !! p = Some (Script text) →
               fs (ResultViewer.world st) !! p = Some (Script text)).
Proof.
  split_and!.
  - intros env st first rest Hsel Hdeps Hw. cbv zeta.
    rewrite (open_interactive_launch env st first rest Hsel Hdeps Hw).
    split_and!; [done | done | done |].
    intros rest'.
    by rewrite (open_interactive_launch env (with_selected (first :: rest') st)
                  first rest' eq_refl Hdeps Hw).
  - intros env st first rest Hsel Hdeps. cbv zeta.
    rewrite (open_interactive_missing env st first rest Hsel Hdeps).
    split_and!; done.
  - intros env st first rest Hsel Hdeps Hw. cbv zeta.
    destruct (open_interactive_unwritten env st first rest Hsel Hdeps Hw)
      as (e & w & -> & Hw').
    cbn [ResultViewer.threads ResultViewer.self ResultViewer.world
         ResultViewer.set_status ResultViewer.selected_files].
    split_and!; [done | done | | |].
    + by destruct Hw' as [-> | ->].
    + exists e. by destruct Hw' as [-> | ->].
    + intros p text. destruct Hw' as [-> | ->]; cbn; [done|].
      intros [[_ ?]|[_ ?]]%lookup_insert_Some; done.
Qed.

(** With the two result files selected, the script is written for the
    first one. *)
Lemma open_interactive_uses_first_file_witness :
  fs (ResultViewer.world (ResultViewer.open_interactive demo_env demo_selected)) =
    <["/tmp/von_mises_fix_0.py" := Script (VonMisesFix "/data/beam.rst")]>
      (fs (ResultViewer.world demo_selected)).
Proof.
  exact (proj1 (proj2 (proj1 open_interactive_uses_first_file demo_env demo_selected
                         "/data/beam.rst" ["/data/plate.rst"] eq_refl eq_refl eq_refl))).
Defined.

(** ** Launches in flight *)

(** C9, as stated, fails for both viewers: a second trigger while the first
    child is still running starts a second thread, and once that thread has
    spawned its child two child processes of the same viewer are live. *)
Lemma second_trigger_spawns_second_child :
  length (ResultViewer.live_children
            (ResultViewer.run demo_env FileManager.init demo_selected
               [ResultViewer.ClickOpen; ResultViewer.Spawn 0;
                ResultViewer.ClickOpen; ResultViewer.Spawn 1])) = 2%nat
  ∧
  length (MechanicalViewer.live_children
            (MechanicalViewer.run demo_mech_env FileManager.init demo_mech_selected
               [MechanicalViewer.ClickView; MechanicalViewer.Spawn 0;
                MechanicalViewer.ClickView; MechanicalViewer.Spawn 1])) = 2%nat.
Proof. split; vm_compute; reflexivity. Qed.

Lemma result_spawn_last env fm st th :
  ResultViewer.thread_stage th = ResultViewer.ThreadStarted →
  let st1 := ResultViewer.mkSys (ResultViewer.self st) (ResultViewer.world st)
               (ResultViewer.threads st ++ [th]) in
  length (ResultViewer.live_children
            (ResultViewer.step env fm st1 (ResultViewer.Spawn (length (ResultViewer.threads st)))))
  = S (length (ResultViewer.live_children st)).
Proof.
  intros Hst. cbv zeta. cbn [ResultViewer.step]. unfold ResultViewer.at_stage.
  cbn [ResultViewer.threads]. rewrite lookup_app_r by lia.
  rewrite Nat.sub_diag. cbn [lookup list_lookup mbind option_bind]. rewrite Hst.
  unfold ResultViewer.live_children. cbn [ResultViewer.move ResultViewer.thread_begin
    ResultViewer.on_world ResultViewer.threads].
  rewrite alter_app_r_alt by lia. rewrite Nat.sub_diag. cbn [alter list_alter].
  rewrite filter_app, length_app.
  rewrite filter_cons_True by done. cbn. lia.
Qed.

Lemma worker_begin_found (env : MechanicalViewer.Env) (file_path : string)
    (st : MechanicalViewer.Sys) :
  path_exists (MechanicalViewer.world st) (worker_candidates env).1 = true ∨
  path_exists (MechanicalViewer.world st) (worker_candidates env).2 = true →
  ∃ st' worker_script,
    MechanicalViewer.worker_begin env file_path st =
      (st', Some [MechanicalViewer.executable env; worker_script; file_path]) ∧
    MechanicalViewer.threads st' = MechanicalViewer.threads st.
Proof.
  unfold MechanicalViewer.worker_begin, MechanicalViewer.find_worker, worker_candidates.
  cbn [fst snd].
  set (primary := OsPath.join (MechanicalViewer.current_dir env) "interactive_worker.py").
  set (alt := OsPath.join (OsPath.dirname (MechanicalViewer.current_dir env))
                "interactive_worker.py").
  change (path_exists (print _ (MechanicalViewer.world st)) primary)
    with (path_exists (MechanicalViewer.world st) primary).
  change (path_exists (print _ (print _ (MechanicalViewer.world st))) alt)
    with (path_exists (MechanicalViewer.world st) alt).
  intros Hex.
  destruct (path_exists (MechanicalViewer.world st) primary); [by eexists _, _|].
  destruct (path_exists (MechanicalViewer.world st) alt); [by eexists _, _|].
  by destruct Hex.
Qed.

Lemma mech_spawn_last env fm st th :
  MechanicalViewer.thread_stage th = MechanicalViewer.ThreadStarted →
  path_exists (MechanicalViewer.world st) (worker_candidates env).1 = true ∨
  path_exists (MechanicalViewer.world st) (worker_candidates env).2 = true →
  let st1 := MechanicalViewer.mkSys (MechanicalViewer.self st) (MechanicalViewer.world st)
               (MechanicalViewer.threads st ++ [th]) (MechanicalViewer.pending st) in
  length (MechanicalViewer.live_children
            (MechanicalViewer.step env fm st1
               (MechanicalViewer.Spawn (length (MechanicalViewer.threads st)))))
  = S (length (MechanicalViewer.live_children st)).
Proof.
  intros Hst Hex. cbv zeta. cbn [MechanicalViewer.step]. unfold MechanicalViewer.at_stage.
  cbn [MechanicalViewer.threads]. rewrite lookup_app_r by lia.
  rewrite Nat.sub_diag. cbn [lookup list_lookup mbind option_bind]. rewrite Hst.
  destruct (worker_begin_found env (MechanicalViewer.thread_file th)
              (MechanicalViewer.mkSys (MechanicalViewer.self st) (MechanicalViewer.world st)
                 (MechanicalViewer.threads st ++ [th]) (MechanicalViewer.pending st)) Hex)
    as (st' & ws & -> & Hth).
  unfold MechanicalViewer.live_children. cbn [MechanicalViewer.move MechanicalViewer.threads].
  rewrite Hth. cbn [MechanicalViewer.threads].
  rewrite alter_app_r_alt by lia. rewrite Nat.sub_diag. cbn [alter list_alter].
  rewrite filter_app, length_app.
  rewrite filter_cons_True by done. cbn. lia.
Qed.

Lemma open_interactive_view_launch (st : MechanicalViewer.Sys) (f : string)
    (rest : list string) (row : nat) (rows : list nat) (name file_path : string) :
  MechanicalViewer.selected_files (MechanicalViewer.self st) = f :: rest →
  MechanicalViewer.tree_selection (MechanicalViewer.self st) = row :: rows →
  MechanicalViewer.file_tree (MechanicalViewer.self st) !! row = Some (name, file_path) →
  MechanicalViewer.open_interactive_view st =
    MechanicalViewer.mkSys
      (MechanicalViewer.set_status "Launching interactive 3D viewer..."
         (MechanicalViewer.self st))
      (MechanicalViewer.world st)
      (MechanicalViewer.threads st ++
       [MechanicalViewer.mkThread file_path [] MechanicalViewer.ThreadStarted])
      (MechanicalViewer.pending st).
Proof.
  intros Hsel Hrow Hlook. unfold MechanicalViewer.open_interactive_view.
  by rewrite Hsel, Hrow, Hlook.
Qed.

(** C9, amended.  Neither viewer looks at the launches in flight.  A trigger
    on a result viewer with a selection, both dependencies and a script file
    that can be written, or on a mechanical viewer with a selection and a
    selected row, starts one more worker thread whatever the earlier threads
    are doing; when that thread has spawned its child (for the mechanical
    viewer: the worker script is found in one of its two places), the viewer
    has one more live child process than before. *)
Theorem triggers_are_not_gated :
  (∀ (env : ResultViewer.Env) (fm : FileManager.t) (st : ResultViewer.Sys)
     (first : string) (rest : list string),
     ResultViewer.interactive_btn (ResultViewer.self st) = true →
     ResultViewer.selected_files (ResultViewer.self st) = first :: rest →
     ResultViewer.pyvista_available env && ResultViewer.dpf_available env = true →
     ResultViewer.script_write env (uuid_calls (ResultViewer.world st)) =
       ResultViewer.WriteOk →
     let st1 := ResultViewer.step env fm st ResultViewer.ClickOpen in
     let st2 := ResultViewer.step env fm st1
                  (ResultViewer.Spawn (length (ResultViewer.threads st))) in
     length (ResultViewer.threads st1) = S (length (ResultViewer.threads st)) ∧
     length (ResultViewer.live_children st2) =
       S (length (ResultViewer.live_children st)))
  ∧
  (∀ (env : MechanicalViewer.Env) (fm : FileManager.t) (st : MechanicalViewer.Sys)
     (f : string) (rest : list string) (row : nat) (rows : list nat)
     (name file_path : string),
     MechanicalViewer.view_btn (MechanicalViewer.self st) = true →
     MechanicalViewer.selected_files (MechanicalViewer.self st) = f :: rest →
     MechanicalViewer.tree_selection (MechanicalViewer.self st) = row :: rows →
     MechanicalViewer.file_tree (MechanicalViewer.self st) !! row = Some (name, file_path) →
     path_exists (MechanicalViewer.world st)
       (OsPath.join (MechanicalViewer.current_dir env) "interactive_worker.py") = true ∨
     path_exists (MechanicalViewer.world st)
       (OsPath.join (OsPath.dirname (MechanicalViewer.current_dir env))
          "interactive_worker.py") = true →
     let st1 := MechanicalViewer.step env fm st MechanicalViewer.ClickView in
     let st2 := MechanicalViewer.step env fm st1
                  (MechanicalViewer.Spawn (length (MechanicalViewer.threads st))) in
     length (MechanicalViewer.threads st1) = S (length (MechanicalViewer.threads st)) ∧
     length (MechanicalViewer.live_children st2) =
       S (length (MechanicalViewer.live_children st))).
Proof.
  split.
  - intros env fm st first rest Hbtn Hsel Hdeps Hw. cbv zeta.
    cbn [ResultViewer.step]. rewrite Hbtn.
    rewrite (open_interactive_launch env st first rest Hsel Hdeps Hw).
    split; [cbn; rewrite length_app; cbn; lia|].
    apply (result_spawn_last env fm
             (ResultViewer.mkSys _ _ (ResultViewer.threads st))). done.
  - intros env fm st f rest row rows name file_path Hbtn Hsel Hrow Hlook Hex. cbv zeta.
    cbn [MechanicalViewer.step]. rewrite Hbtn.
    rewrite (open_interactive_view_launch st f rest row rows name file_path Hsel Hrow Hlook).
    split; [cbn; rewrite length_app; cbn; lia|].
    apply (mech_spawn_last env fm
             (MechanicalViewer.mkSys _ _ (MechanicalViewer.threads st) _)); done.
Qed.

(** A trigger while one child of the result viewer is live: two are live. *)
Lemma triggers_are_not_gated_witness :
  let st := ResultViewer.run demo_env FileManager.init demo_selected
              [ResultViewer.ClickOpen; ResultViewer.Spawn 0] in
  length (ResultViewer.live_children st) = 1%nat ∧
  length (ResultViewer.live_children
            (ResultViewer.step demo_env FileManager.init
               (ResultViewer.step demo_env FileManager.init st ResultViewer.ClickOpen)
               (ResultViewer.Spawn 1))) = 2%nat.
Proof.
  split; [reflexivity|].
  exact (proj2 (proj1 triggers_are_not_gated demo_env FileManager.init
                  (ResultViewer.run demo_env FileManager.init demo_selected
                     [ResultViewer.ClickOpen; ResultViewer.Spawn 0])
                  "/data/beam.rst" ["/data/plate.rst"] eq_refl eq_refl eq_refl eq_refl)).
Defined.

(** ** Arguments of the child scripts *)

(** C6, as stated, fails for the launches of the application.  The result
    viewer starts its script with no positional argument, and the script
    plots the path and the result written into it whatever arguments it is
    given; the mechanical worker, given a path and a result kind, prints its
    usage line and exits with status 1. *)
Lemma children_take_no_path_and_kind :
  ResultViewer.thread_argv <$>
    ResultViewer.threads (ResultViewer.open_interactive demo_env demo_selected) =
    [["/usr/bin/python3"; "/tmp/von_mises_fix_0.py"]] ∧
  Scripts.generated_script (VonMisesFix "/data/beam.rst") true
    ["/tmp/von_mises_fix_0.py"; "/data/plate.rst"; "Total Deformation"] =
    Scripts.PlotResult "/data/beam.rst" Scripts.VonMisesStress ∧
  Scripts.interactive_worker None
    ["interactive_worker.py"; "/data/frame.mechdat"; "Von Mises Stress"] =
    Scripts.Exit 1 [worker_usage].
Proof. split_and!; vm_compute; reflexivity. Qed.

(** C6, amended.  The worker generated by the article snippet takes
    [(file_path, result_kind)] positionally: it plots Von Mises stress when
    the kind is the text [Von Mises Stress] and total deformation for any
    other text, and uses the kind written into it when none is passed.  The
    scripts of the result viewer are started with the interpreter and the
    script path only and do not depend on their arguments.  The mechanical
    worker takes exactly one positional argument, the file path. *)
Theorem child_script_arguments :
  (∀ (embedded script rst_path result_kind : string) (more : list string),
     Scripts.snippet_worker embedded None (script :: rst_path :: result_kind :: more) =
       Scripts.PlotResult rst_path
         (if String.eqb result_kind "Von Mises Stress"
          then Scripts.VonMisesStress else Scripts.TotalDeformation))
  ∧
  (∀ embedded script rst_path : string,
     Scripts.snippet_worker embedded None [script; rst_path] =
       Scripts.PlotResult rst_path
         (if String.eqb embedded "Von Mises Stress"
          then Scripts.VonMisesStress else Scripts.TotalDeformation))
  ∧
  (∀ (env : ResultViewer.Env) (script_path : string) (st : ResultViewer.Sys),
     ResultViewer.threads (ResultViewer.run_script env script_path st) =
       ResultViewer.threads st ++
       [ResultViewer.mkThread script_path [ResultViewer.executable env; script_path]
          ResultViewer.ThreadStarted])
  ∧
  (∀ (text : ScriptText) (imports_ok : bool) (argv argv' : list string),
     Scripts.generated_script text imports_ok argv =
     Scripts.generated_script text imports_ok argv')
  ∧
  (∀ argv : list string,
     Scripts.interactive_worker None argv =
       match argv with
       | [_; mechdat_path] => Scripts.OpenMechanical mechdat_path
       | _ => Scripts.Exit 1 [worker_usage]
       end).
Proof.
  split_and!.
  - intros embedded script rst_path result_kind more. unfold Scripts.snippet_worker.
    rewrite bool_decide_eq_false_2 by (cbn; lia). cbn [lookup list_lookup].
    rewrite bool_decide_eq_false_2 by (cbn; lia).
    change (default embedded (Some result_kind)) with result_kind.
    by destruct (String.eqb result_kind "Von Mises Stress").
  - intros embedded script rst_path. unfold Scripts.snippet_worker.
    rewrite bool_decide_eq_false_2 by (cbn; lia). cbn [lookup list_lookup].
    rewrite bool_decide_eq_true_2 by (cbn; lia).
    by destruct (String.eqb embedded "Von Mises Stress").
  - done.
  - done.
  - intros argv. unfold Scripts.interactive_worker.
    destruct argv as [|a [|b [|c argv]]]; try done.
Qed.

(** ** Entry points *)

(** C8, as stated, fails: without tkinter the launcher's [main()] returns
    and the process ends with status 0. *)
Lemma launcher_without_tkinter_exits_zero :
  Launch.tkinter (Launch.deps demo_launch_env) = false ∧
  (Launch.script demo_launch_env).2 = 0.
Proof. split; reflexivity. Qed.

(** C8, amended.  Without tkinter the launcher prints its banner and the two
    lines about tkinter and returns at once: it asks nothing, runs no
    installer and does not start the GUI, and its process ends with status
    0.  The non-zero status belongs to [main.py]: when tkinter cannot be
    imported, or the start of the application raises, it ends with status 1
    without entering the main loop. *)
Theorem launcher_without_tkinter :
  (∀ env : Launch.Env,
     Launch.tkinter (Launch.deps env) = false →
     (Launch.script env).1 =
       Launch.banner ++
       [Process.Print "❌ Tkinter: Not available (required)";
        Process.Print "   Install Python with tkinter support"] ∧
     (∀ argv, Process.Run argv ∉ (Launch.script env).1) ∧
     (∀ prompt, Process.Input prompt ∉ (Launch.script env).1) ∧
     ¬ Launch.gui_started (Launch.script env).1 ∧
     (Launch.script env).2 = 0)
  ∧
  (∀ env : Main.Env,
     Main.tkinter_importable env = false ∨ is_Some (Main.startup_error env) →
     (Main.script env).2 = 1 ∧ Process.Mainloop ∉ (Main.script env).1).
Proof.
  split.
  - intros env Htk.
    assert (Hev : (Launch.script env).1 =
       Launch.banner ++
       [Process.Print "❌ Tkinter: Not available (required)";
        Process.Print "   Install Python with tkinter support"]).
    { unfold Launch.script, Launch.main. by rewrite Htk. }
    assert (Hrun : ∀ argv, Process.Run argv ∉ (Launch.script env).1).
    { intros argv. rewrite Hev. unfold Launch.banner. cbn [app].
      repeat (apply not_elem_of_cons; split; [discriminate|]). apply not_elem_of_nil. }
    split_and!.
    + done.
    + done.
    + intros prompt. rewrite Hev. unfold Launch.banner. cbn [app].
      repeat (apply not_elem_of_cons; split; [discriminate|]). apply not_elem_of_nil.
    + intros (argv & Hin & _). by apply Hrun in Hin.
    + unfold Launch.script, Launch.main. by rewrite Htk.
  - intros env [Htk|[e He]]; unfold Main.script.
    + rewrite Htk. split; [done|].
      apply not_elem_of_cons; split; [discriminate | apply not_elem_of_nil].
    + destruct (Main.tkinter_importable env).
      * unfold Main.main. rewrite He. split; [done|]. cbn.
        repeat (apply not_elem_of_cons; split; [discriminate|]). apply not_elem_of_nil.
      * split; [done|].
        apply not_elem_of_cons; split; [discriminate | apply not_elem_of_nil].
Qed.

(** The launcher without tkinter, on the example environment. *)
Lemma launcher_without_tkinter_witness :
  (Launch.script demo_launch_env).1 =
    Launch.banner ++
    [Process.Print "❌ Tkinter: Not available (required)";
     Process.Print "   Install Python with tkinter support"].
Proof.
  exact (proj1 (proj1 launcher_without_tkinter demo_launch_env eq_refl)).
Defined.

(** ** Further properties of the validator *)

Lemma validate_loop_same_files (w w' : World) (files exts : list string) :
  fs w' = fs w →
  FileManager.validate_loop w' files exts = FileManager.validate_loop w files exts.
Proof.
  intros Hfs. rewrite !validate_loop_filter. f_equal.
  - apply list_filter_iff. intros p. unfold acceptable. by rewrite Hfs.
  - apply list_filter_iff. intros p. unfold acceptable. by rewrite Hfs.
Qed.

(** Validating the same paths again, right after a first call, returns the
    same list and rejects the same paths. *)
Theorem validate_files_idempotent (w : World) (files exts : list string) :
  let w' := (FileManager.validate_files files exts w).2 in
  (FileManager.validate_files files exts w').1 =
    (FileManager.validate_files files exts w).1 ∧
  (FileManager.validate_loop w' files exts).2 =
    (FileManager.validate_loop w files exts).2.
Proof.
  cbv zeta.
  assert (Hfs : fs (FileManager.validate_files files exts w).2 = fs w).
  { unfold FileManager.validate_files.
    by destruct (FileManager.validate_loop w files exts) as [v [|x i]]. }
  rewrite !validate_files_returns, (validate_loop_same_files _ _ _ _ Hfs).
  split; [|done]. apply list_filter_iff. intros p. unfold acceptable. by rewrite Hfs.
Qed.

(** The accepted and the rejected paths keep the order of the input. *)
Theorem validate_files_keeps_order (w : World) (files exts : list string) :
  sublist (FileManager.validate_files files exts w).1 files ∧
  sublist (FileManager.validate_loop w files exts).2 files.
Proof.
  rewrite validate_files_returns, validate_loop_filter. split; apply sublist_filter.
Qed.

(** ** Examples *)

Example splitext_rst :
  OsPath.splitext "/data/run1/beam.RST" = ("/data/run1/beam", ".RST").
Proof. reflexivity. Qed.

Example splitext_tar_gz : OsPath.splitext "a.tar.gz" = ("a.tar", ".gz").
Proof. reflexivity. Qed.

Example splitext_dotfile : OsPath.splitext "/home/u/.bashrc" = ("/home/u/.bashrc", "").
Proof. reflexivity. Qed.

Example splitext_dir_dot : OsPath.splitext "/a.b/c" = ("/a.b/c", "").
Proof. reflexivity. Qed.

Example basename_ex : OsPath.basename "/data/run1/beam.rst" = "beam.rst".
Proof. reflexivity. Qed.

Example dirname_ex : OsPath.dirname "/app/src" = "/app".
Proof. reflexivity. Qed.

Example join_ex : OsPath.join "/tmp" "x.py" = "/tmp/x.py".
Proof. reflexivity. Qed.

Example lower_ex : PyStr.lower ".MechDat" = ".mechdat".
Proof. reflexivity. Qed.

(** The scenario of the specification: a mechanical file, a result file and
    a text file validated against the mechanical rule. *)
Example validate_scenario :
  let w := mkWorld (<["a.mechdat" := Opaque]> (<["b.rst" := Opaque]> ∅)) [] [] 0 in
  let r := FileManager.select_mechanical_files FileManager.init
             ["a.mechdat"; "b.rst"; "c.txt"] w in
  r.1 = ["a.mechdat"] ∧
  dialogs r.2 =
    [ShowWarning "Invalid Files"
       "The following files are not supported or don't exist:\nb.rst\nc.txt"].
Proof. cbv zeta. split; vm_compute; reflexivity. Qed.

(** A result launch that fails: fixed status text, script removed. *)
Example failing_launch :
  let st := ResultViewer.run demo_env FileManager.init demo_selected
              [ResultViewer.ClickOpen; ResultViewer.Spawn 0;
               ResultViewer.ChildExit 0 ["General error: no such file"] 1
                 ResultViewer.RemoveOk] in
  ResultViewer.status_var (ResultViewer.self st) = "Error in 3D visualization" ∧
  path_exists (ResultViewer.world st) "/tmp/von_mises_fix_0.py" = false ∧
  ResultViewer.live_children st = [].
Proof. cbv zeta. split_and!; vm_compute; reflexivity. Qed.

(** * Further properties *)

(** ** The validator: composition *)

(** Validating the list a call returned, with the same accepted extensions
    and the files still in place, returns that list again and rejects
    nothing, so no warning is shown. *)
Theorem validate_files_accepted_fixpoint (w : World) (files exts : list string) :
  let r := FileManager.validate_files files exts w in
  let r' := FileManager.validate_files r.1 exts r.2 in
  r'.1 = r.1 ∧
  (FileManager.validate_loop r.2 r.1 exts).2 = [] ∧
  dialogs r'.2 = dialogs r.2.
Proof.
  cbv zeta.
  assert (Hfs : fs (FileManager.validate_files files exts w).2 = fs w).
  { unfold FileManager.validate_files.
    by destruct (FileManager.validate_loop w files exts) as [v [|x i]]. }
  set (w' := (FileManager.validate_files files exts w).2) in *.
  assert (Hacc : ∀ p, acceptable w' exts p ↔ acceptable w exts p).
  { intros p. unfold acceptable. by rewrite Hfs. }
  rewrite (validate_files_returns w exts files).
  assert (Hnone : (FileManager.validate_loop w' (filter (acceptable w exts) files) exts).2 = []).
  { rewrite validate_loop_filter. cbn [snd]. apply elem_of_nil_inv.
    intros p [Hno [Hyes _]%list_elem_of_filter]%list_elem_of_filter.
    apply Hno. by apply Hacc. }
  split_and!.
  - rewrite validate_files_returns.
    rewrite (list_filter_iff _ (acceptable w exts)) by done.
    rewrite list_filter_filter. apply list_filter_iff. tauto.
  - done.
  - unfold FileManager.validate_files.
    destruct (FileManager.validate_loop w' (filter (acceptable w exts) files) exts)
      as [v i]. cbn [snd] in Hnone. by subst i.
Qed.

(** The accepted list of a concatenation is the concatenation of the
    accepted lists, and likewise for the rejected paths: validating two
    batches together or one after the other classifies every path the same
    way. *)
Theorem validate_files_app (w : World) (files1 files2 exts : list string) :
  (FileManager.validate_files (files1 ++ files2) exts w).1 =
    (FileManager.validate_files files1 exts w).1 ++
    (FileManager.validate_files files2 exts w).1 ∧
  (FileManager.validate_loop w (files1 ++ files2) exts).2 =
    (FileManager.validate_loop w files1 exts).2 ++
    (FileManager.validate_loop w files2 exts).2.
Proof.
  rewrite !validate_files_returns, !validate_loop_filter. cbn [snd].
  by rewrite !filter_app.
Qed.

(** ** [os.path.splitext] as the validator uses it *)












(** A rule that holds the empty extension accepts a file without one. *)
Example empty_extension_rule :
  (FileManager.validate_files ["/d/README"] [""]
     (mkWorld (<["/d/README" := Opaque]> ∅) [] [] 0)).1 = ["/d/README"].
Proof. vm_compute. reflexivity. Qed.

(** ** [get_file_info] *)



(** ** The validator of the file-selection example *)

Lemma selector_fold w exts acc files :
  foldl (FileSelector.validate_step w exts) acc files =
  (acc.1 ++ filter (acceptable w exts) files,
   acc.2 ++ filter (λ p, path_exists w p = true ∧ ¬ acceptable w exts p) files).
Proof.
  revert acc. induction files as [|p files IH]; intros [v i].
  - cbn. by rewrite !app_nil_r.
  - cbn [foldl]. rewrite IH. unfold FileSelector.validate_step.
    destruct (path_exists w p) eqn:Hex.
    + cbn zeta. case_bool_decide as Hext.
      * assert (acceptable w exts p) by by apply acceptable_exists.
        cbn [fst snd]. rewrite filter_cons_True by done.
        rewrite (filter_cons_False (λ p, _ ∧ _)) by tauto.
        by rewrite <- app_assoc.
      * assert (¬ acceptable w exts p) by (rewrite acceptable_exists; tauto).
        cbn [fst snd]. rewrite filter_cons_False by done.
        rewrite (filter_cons_True (λ p, _ ∧ _)) by done.
        by rewrite <- app_assoc.
    + assert (¬ acceptable w exts p) by (rewrite acceptable_exists; intros [? _]; congruence).
      cbn [fst snd]. rewrite filter_cons_False by done.
      rewrite (filter_cons_False (λ p, _ ∧ _)); [done|]. intros [? _]. congruence.
Qed.

(** The example's validator accepts exactly what the application's
    validator accepts, in the same order, but it reports less: its rejected
    list holds the input paths that exist and have another extension, and a
    path that does not exist is dropped without being reported. *)
Theorem selector_validate_files_spec (w : World) (files exts : list string) :
  (FileSelector.validate_files files exts w).1 =
    (FileManager.validate_files files exts w).1 ∧
  (∀ p, p ∈ (FileSelector.validate_loop w files exts).2 ↔
        p ∈ files ∧ path_exists w p = true ∧
        PyStr.lower (OsPath.splitext p).2 ∉ exts) ∧
  (∀ p, path_exists w p = false →
        (p ∉ (FileSelector.validate_loop w files exts).1) ∧
        (p ∉ (FileSelector.validate_loop w files exts).2)) ∧
  sublist (FileSelector.validate_loop w files exts).2
          (FileManager.validate_loop w files exts).2.
Proof.
  assert (Hloop : FileSelector.validate_loop w files exts =
    (filter (acceptable w exts) files,
     filter (λ p, path_exists w p = true ∧ ¬ acceptable w exts p) files)).
  { unfold FileSelector.validate_loop. by rewrite selector_fold. }
  rewrite validate_files_returns, validate_loop_filter.
  unfold FileSelector.validate_files. rewrite Hloop. cbn [fst snd].
  split_and!.
  - by destruct (filter (λ p, _ ∧ _) files).
  - intros p. rewrite list_elem_of_filter, acceptable_exists. tauto.
  - intros p Hex. rewrite !list_elem_of_filter, acceptable_exists.
    split; intros [H _]; destruct H; congruence.
  - clear Hloop. induction files as [|p files IH]; [done|].
    destruct (decide (acceptable w exts p)) as [Hp|Hp].
    + rewrite (filter_cons_False (λ p, ¬ _)) by tauto.
      by rewrite (filter_cons_False (λ p, _ ∧ _)) by tauto.
    + rewrite (filter_cons_True (λ p, ¬ _)) by done.
      destruct (decide (path_exists w p = true)) as [Hex|Hex].
      * rewrite (filter_cons_True (λ p, _ ∧ _)) by done. by apply sublist_skip.
      * rewrite (filter_cons_False (λ p, _ ∧ _)) by tauto. by apply sublist_cons.
Qed.

Lemma validate_files_single_warning_frame (w : World) (files exts : list string) :
  fs (FileManager.validate_files files exts w).2 = fs w ∧
  (dialogs (FileManager.validate_files files exts w).2 = dialogs w ∨
   ∃ msg, dialogs (FileManager.validate_files files exts w).2 =
          dialogs w ++ [ShowWarning "Invalid Files" msg]).
Proof.
  unfold FileManager.validate_files.
  destruct (FileManager.validate_loop w files exts) as [v [|x i]]; cbn.
  - split; [done | by left].
  - split; [done | right; by eexists].
Qed.

(** ** [main.py]: the import path *)

(** After [setup_path] the [src] directory is on [sys.path]; the entries
    that were there keep their order behind it; a second call changes
    nothing; no duplicate is introduced; and a directory that was missing
    comes first. *)
Theorem setup_path_spec (current_dir : string) (sys_path : list string) :
  let src_dir := OsPath.join current_dir "src" in
  let sp := MainSetup.setup_path current_dir sys_path in
  src_dir ∈ sp ∧
  MainSetup.setup_path current_dir sp = sp ∧
  sys_path `suffix_of` sp ∧
  (NoDup sys_path → NoDup sp) ∧
  (src_dir ∉ sys_path → sp = src_dir :: sys_path).
Proof.
  cbv zeta. unfold MainSetup.setup_path.
  case_bool_decide as Hin.
  - rewrite bool_decide_eq_true_2 by done. split_and!; try done.
  - rewrite bool_decide_eq_true_2 by apply list_elem_of_here.
    split_and!; [apply list_elem_of_here | done | by apply suffix_cons_r | | done].
    intros Hnd. by apply NoDup_cons.
Qed.

(** ** The widgets of the result viewer *)

Section ResultWidgets.
Import ResultViewer.
Context (env : Env) (fm : FileManager.t) (w : World).

Lemma update_file_list_exists files w0 :
  (∀ p, p ∈ files → path_exists w0 p = true) →
  update_file_list files w0 = tree_of files.
Proof.
  induction files as [|p files IH]; intros Hex; [done|].
  unfold update_file_list, tree_of in *. cbn [omap list_omap fmap list_fmap].
  unfold FileManager.get_file_info at 1.
  rewrite (Hex p) by apply list_elem_of_here. cbn.
  f_equal. apply IH. intros q Hq. apply Hex. by apply list_elem_of_further.
Qed.

Lemma same_ui_refl st : same_ui st st.
Proof. done. Qed.

Lemma same_ui_trans st1 st2 st3 : same_ui st1 st2 → same_ui st2 st3 → same_ui st1 st3.
Proof. intros (?&?&?&?) (?&?&?&?). unfold same_ui. split_and!; congruence. Qed.

Lemma cleanup_same_ui script_path r st : same_ui st (cleanup script_path r st).
Proof. unfold cleanup. by destruct (path_exists _ _), r. Qed.

Lemma thread_end_same_ui script_path c r st : same_ui st (thread_end script_path c r st).
Proof.
  destruct c as [e|lines e|lines code]; cbn [thread_end];
    (eapply same_ui_trans; [|apply cleanup_same_ui]).
  - done.
  - unfold same_ui. cbn. split_and!; try done. apply echo_lines_frame.
  - unfold same_ui, on_return_code. destruct (code =? 0); cbn;
      (split_and!; try done; apply echo_lines_frame).
Qed.

Lemma same_ui_inv st st' : same_ui st st' → result_ui_inv fm w st → result_ui_inv fm w st'.
Proof.
  intros (Hs & Hb & Ht & Hd) (H1 & H2 & H3 & H4). unfold result_ui_inv.
  rewrite Hs, Hb, Ht, Hd. done.
Qed.

Lemma select_files_ui_inv chosen st :
  result_ui_inv fm w st → result_ui_inv fm w (select_files fm chosen st).
Proof.
  intros (H1 & H2 & H3 & shown & Hd & Hno).
  unfold select_files, FileManager.select_result_files.
  pose proof (validate_files_returns (world st) (FileManager.supported_result_files fm) chosen)
    as Hret.
  pose proof (validate_files_single_warning_frame (world st) chosen
                (FileManager.supported_result_files fm)) as (Hfs & Hdlg).
  destruct (FileManager.validate_files chosen _ (world st)) as [files w'].
  cbn [fst snd] in *.
  assert (Hshown : ∃ shown', dialogs w' = dialogs w ++ shown' ∧ no_files_warning ∉ shown').
  { destruct Hdlg as [Hdlg|[msg Hdlg]].
    - exists shown. by rewrite Hdlg.
    - exists (shown ++ [ShowWarning "Invalid Files" msg]). rewrite Hdlg, Hd, app_assoc.
      split; [done|]. intros [?|Hin%list_elem_of_singleton]%elem_of_app; [done|].
      discriminate Hin. }
  destruct files as [|f files]; [done|].
  unfold result_ui_inv. cbn [self world selected_files interactive_btn file_tree].
  split_and!.
  - done.
  - intros p Hp. rewrite Hret in Hp. by apply list_elem_of_filter in Hp as [[_ ?] _].
  - apply update_file_list_exists. intros p Hp. rewrite Hret in Hp.
    apply list_elem_of_filter in Hp as [[Hex _] _].
    unfold path_exists. rewrite Hfs. by apply bool_decide_eq_true_2.
  - done.
Qed.

Lemma open_interactive_ui_inv st :
  interactive_btn (self st) = true →
  result_ui_inv fm w st → result_ui_inv fm w (open_interactive env st).
Proof.
  intros Hbtn (H1 & H2 & H3 & shown & Hd & Hno).
  unfold open_interactive.
  destruct (selected_files (self st)) as [|f rest] eqn:Hsel.
  { apply H1 in Hbtn. done. }
  destruct (negb _).
  - unfold result_ui_inv. cbn. rewrite Hsel. split_and!; try done.
    eexists. rewrite Hd, <- app_assoc. split; [done|].
    intros [?|Hin%list_elem_of_singleton]%elem_of_app; [done|]. discriminate Hin.
  - destruct (String.eqb (result_type (self st)) "von_mises");
      [unfold create_von_mises_script | unfold create_total_deformation_script];
      cbn [world on_self]; destruct (script_write env _);
      unfold result_ui_inv; cbn; rewrite Hsel; split_and!; try done; by exists shown.
Qed.

Lemma step_ui_inv st a :
  result_ui_inv fm w st → result_ui_inv fm w (step env fm st a).
Proof.
  intros Hinv.
  destruct a as [chosen|v| |i|i e r|i lines e r|i lines code r]; cbn [step].
  - by apply select_files_ui_inv.
  - done.
  - destruct (interactive_btn (self st)) eqn:Hbtn; [by apply open_interactive_ui_inv | done].
  - destruct (at_stage i ThreadStarted st); done.
  - destruct (at_stage i ThreadStarted st) as [th|]; [|done].
    eapply same_ui_inv; [|exact Hinv].
    eapply (same_ui_trans _ (thread_begin (thread_script th) st)); [done|].
    apply (thread_end_same_ui (thread_script th) (PopenRaises e) r).
  - destruct (at_stage i ChildRunning st) as [th|]; [|done].
    eapply same_ui_inv; [|exact Hinv].
    apply (thread_end_same_ui (thread_script th) (ReadRaises lines e) r).
  - destruct (at_stage i ChildRunning st) as [th|]; [|done].
    eapply same_ui_inv; [|exact Hinv].
    apply (thread_end_same_ui (thread_script th) (Exits lines code) r).
Qed.

Lemma run_ui_inv st acts :
  result_ui_inv fm w st → result_ui_inv fm w (run env fm st acts).
Proof.
  unfold run. revert st. induction acts as [|a acts IH]; intros st H; [done|].
  cbn [foldl]. by apply IH, step_ui_inv.
Qed.

End ResultWidgets.

(** In every state a result viewer reaches from its initial state, the
    launch button is enabled exactly when files are selected, every selected
    file has an accepted extension, the file list shows one row (name, path)
    per selected file, and the empty-selection warning of [open_interactive]
    has never been shown. *)
Theorem result_viewer_widgets (env : ResultViewer.Env) (fm : FileManager.t)
    (w : World) (acts : list ResultViewer.Action) :
  let st := ResultViewer.run env fm (ResultViewer.boot w) acts in
  (ResultViewer.interactive_btn (ResultViewer.self st) = true ↔
   ResultViewer.selected_files (ResultViewer.self st) ≠ []) ∧
  (∀ p, p ∈ ResultViewer.selected_files (ResultViewer.self st) →
        PyStr.lower (OsPath.splitext p).2 ∈ FileManager.supported_result_files fm) ∧
  ResultViewer.file_tree (ResultViewer.self st) =
    (λ p, (OsPath.basename p, p)) <$> ResultViewer.selected_files (ResultViewer.self st) ∧
  ∃ shown, dialogs (ResultViewer.world st) = dialogs w ++ shown ∧
           ShowWarning "No Files" "Please select RST files first." ∉ shown.
Proof.
  cbv zeta. apply (run_ui_inv env fm w). unfold result_ui_inv. cbn. split_and!; try done.
  - intros p Hp. by apply elem_of_nil in Hp.
  - exists []. rewrite app_nil_r. split; [done | apply not_elem_of_nil].
Qed.

(** ** The mechanical viewer *)

Lemma find_worker_cases (env : MechanicalViewer.Env) (w : World) :
  fs (MechanicalViewer.find_worker env w).1 = fs w ∧
  dialogs (MechanicalViewer.find_worker env w).1 = dialogs w ∧
  match (MechanicalViewer.find_worker env w).2 with
  | inl worker_script =>
      path_exists w worker_script = true ∧
      worker_script = (if path_exists w (worker_candidates env).1
                       then (worker_candidates env).1 else (worker_candidates env).2)
  | inr _ => path_exists w (worker_candidates env).1 = false ∧
             path_exists w (worker_candidates env).2 = false
  end.
Proof.
  unfold MechanicalViewer.find_worker, worker_candidates. cbn [fst snd].
  set (primary := OsPath.join (MechanicalViewer.current_dir env) "interactive_worker.py").
  set (alt := OsPath.join (OsPath.dirname (MechanicalViewer.current_dir env))
                "interactive_worker.py").
  change (path_exists (print _ w) primary) with (path_exists w primary).
  destruct (path_exists w primary) eqn:Hp; [done|].
  change (path_exists (print _ (print _ w)) alt) with (path_exists w alt).
  destruct (path_exists w alt) eqn:Ha; done.
Qed.

(** The worker script is looked for beside the module first and one
    directory up second; the search changes no file and returns a script
    that exists, the first candidate whenever that one exists, and it fails
    exactly when neither candidate exists. *)
Theorem find_worker_spec (env : MechanicalViewer.Env) (w : World) :
  let primary := (worker_candidates env).1 in
  let alt := (worker_candidates env).2 in
  fs (MechanicalViewer.find_worker env w).1 = fs w ∧
  dialogs (MechanicalViewer.find_worker env w).1 = dialogs w ∧
  match (MechanicalViewer.find_worker env w).2 with
  | inl worker_script =>
      path_exists w worker_script = true ∧
      worker_script = (if path_exists w primary then primary else alt)
  | inr _ => path_exists w primary = false ∧ path_exists w alt = false
  end.
Proof. cbv zeta. apply find_worker_cases. Qed.

Section MechSteps.
Import MechanicalViewer.
Context (env : Env) (fm : FileManager.t).
















End MechSteps.



(** The selected file is deleted, then the view button is pressed: the
    file stays selected, and the worker is started on the missing file. *)
Example launch_of_deleted_file :
  let st := MechanicalViewer.run demo_mech_env FileManager.init demo_mech_selected
              [MechanicalViewer.FileVanishes "/data/frame.mechdat";
               MechanicalViewer.ClickView; MechanicalViewer.Spawn 0] in
  path_exists (MechanicalViewer.world st) "/data/frame.mechdat" = false ∧
  MechanicalViewer.selected_files (MechanicalViewer.self st) = ["/data/frame.mechdat"] ∧
  MechanicalViewer.thread_argv <$> MechanicalViewer.live_children st =
    [["/usr/bin/python3"; "/app/src/interactive_worker.py"; "/data/frame.mechdat"]].
Proof. cbv zeta. split_and!; vm_compute; reflexivity. Qed.

(** ** The files of the result viewer *)

Section ResultFiles.
Import ResultViewer.
Context (env : Env) (fm : FileManager.t) (w : World).

Lemma thread_end_cleanup script_path c r st :
  ∃ st0, thread_end script_path c r st = cleanup script_path r st0 ∧
         fs (world st0) = fs (world st) ∧ threads st0 = threads st.
Proof.
  destruct c as [e|lines e|lines code]; cbn [thread_end]; eexists; (split; [done|]).
  - done.
  - cbn. split; [apply echo_lines_frame | done].
  - destruct (on_return_code_frame code (on_world (echo_lines lines) st)) as (-> & _ & ->).
    cbn. split; [apply echo_lines_frame | done].
Qed.

Lemma cleanup_fs script_path r st :
  threads (cleanup script_path r st) = threads st ∧
  (fs (world (cleanup script_path r st)) = fs (world st) ∨
   fs (world (cleanup script_path r st)) = delete script_path (fs (world st))) ∧
  (r = RemoveOk → fs (world (cleanup script_path r st)) !! script_path = None).
Proof.
  unfold cleanup, path_exists. case_bool_decide as Hex.
  - destruct r; cbn.
    + split_and!; [done | by right | intros _; apply lookup_delete_eq].
    + split_and!; [done | by left | done].
  - split_and!; [done | by left |]. intros _.
    destruct (fs (world st) !! script_path) eqn:Hl; [|done]. destruct Hex. by eexists.
Qed.

Lemma thread_end_fs script_path c r st :
  threads (thread_end script_path c r st) = threads st ∧
  (fs (world (thread_end script_path c r st)) = fs (world st) ∨
   fs (world (thread_end script_path c r st)) = delete script_path (fs (world st))) ∧
  (r = RemoveOk → fs (world (thread_end script_path c r st)) !! script_path = None).
Proof.
  destruct (thread_end_cleanup script_path c r st) as (st0 & -> & Hfs & Hth).
  destruct (cleanup_fs script_path r st0) as (H1 & H2 & H3).
  rewrite Hfs, Hth in *. done.
Qed.

Lemma at_stage_Some_r i s st th :
  at_stage i s st = Some th → threads st !! i = Some th ∧ thread_stage th = s.
Proof.
  unfold at_stage. destruct (threads st !! i) as [th'|]; [|done]. cbn.
  destruct (thread_stage th') eqn:Hs, s; intros [= <-]; done.
Qed.

Lemma script_is_name st i th :
  scripts_fresh env st → threads st !! i = Some th →
  ∃ k j, thread_script th = script_name env k j.
Proof.
  intros (tags & Hs & _ & _) Hl.
  assert (Hin : thread_script th ∈ thread_script <$> threads st).
  { apply list_elem_of_fmap. exists th. split; [done|]. by eapply list_elem_of_lookup_2. }
  rewrite Hs in Hin. apply list_elem_of_fmap in Hin as ([k j] & -> & _). by exists k, j.
Qed.

Lemma fs_inv_same st st' :
  fs (world st') = fs (world st) → result_fs_inv env fm w st → result_fs_inv env fm w st'.
Proof. intros Hfs [H1 H2]. unfold result_fs_inv. by rewrite Hfs. Qed.

Lemma fs_inv_delete st st' script_path :
  (∃ k j, script_path = script_name env k j) →
  fs (world st') = fs (world st) ∨ fs (world st') = delete script_path (fs (world st)) →
  result_fs_inv env fm w st → result_fs_inv env fm w st'.
Proof.
  intros (k & j & ->) [Hfs|Hfs] [H1 H2]; [by apply (fs_inv_same st)|].
  unfold result_fs_inv. rewrite Hfs. split.
  - intros p Hp. rewrite lookup_delete_ne by (intros Heq; by apply (Hp k j)). by apply H1.
  - intros p text Hl. destruct (decide (script_name env k j = p)) as [<-|Hne].
    + by rewrite lookup_delete_eq in Hl.
    + rewrite lookup_delete_ne in Hl by done. by apply H2.
Qed.

Lemma fs_inv_write st st' k j d :
  fs (world st') = <[script_name env k j := d]> (fs (world st)) →
  (∀ text, d = Script text →
     PyStr.lower (OsPath.splitext (embedded_path text)).2 ∈
       FileManager.supported_result_files fm) →
  result_fs_inv env fm w st → result_fs_inv env fm w st'.
Proof.
  intros Hfs Hd [H1 H2]. unfold result_fs_inv. rewrite Hfs. split.
  - intros p Hp. rewrite lookup_insert_ne; [by apply H1|].
    intros Heq. by apply (Hp k j).
  - intros p text Hl. apply lookup_insert_Some in Hl as [[_ Heq]|[_ Hl]];
      [right; by apply Hd | by apply H2].
Qed.

Lemma step_fs_inv st a :
  scripts_fresh env st → result_ui_inv fm w st →
  result_fs_inv env fm w st → result_fs_inv env fm w (step env fm st a).
Proof.
  intros Hfresh (_ & Hext & _ & _) Hinv.
  destruct a as [chosen|v| |i|i e r|i lines e r|i lines code r]; cbn [step].
  - apply (fs_inv_same st); [|done]. unfold select_files, FileManager.select_result_files.
    pose proof (validate_files_single_warning_frame (world st) chosen
                  (FileManager.supported_result_files fm)) as [Hfs _].
    by destruct (FileManager.validate_files chosen _ (world st)) as [[|f files] w'].
  - done.
  - destruct (interactive_btn (self st)); [|done]. unfold open_interactive.
    destruct (selected_files (self st)) as [|f rest] eqn:Hsel; [by apply (fs_inv_same st)|].
    destruct (negb _); [by apply (fs_inv_same st)|].
    assert (Hf : PyStr.lower (OsPath.splitext f).2 ∈ FileManager.supported_result_files fm).
    { apply Hext. apply list_elem_of_here. }
    destruct (String.eqb (result_type (self st)) "von_mises");
      [unfold create_von_mises_script | unfold create_total_deformation_script];
      cbn [world on_self]; destruct (script_write env _) as [|e|e];
      first [ by apply (fs_inv_same st)
            | eapply (fs_inv_write st _ true (uuid_calls (world st)));
                [reflexivity | by intros text [= <-] | done]
            | eapply (fs_inv_write st _ false (uuid_calls (world st)));
                [reflexivity | by intros text [= <-] | done] ].
  - destruct (at_stage i ThreadStarted st); [|done]. by apply (fs_inv_same st).
  - destruct (at_stage i ThreadStarted st) as [th|] eqn:Hat; [|done].
    apply at_stage_Some_r in Hat as [Hl _].
    destruct (thread_end_fs (thread_script th) (PopenRaises e) r
                (thread_begin (thread_script th) st)) as (_ & Hfs & _).
    apply (fs_inv_delete st _ (thread_script th)); [by eapply script_is_name | done | done].
  - destruct (at_stage i ChildRunning st) as [th|] eqn:Hat; [|done].
    apply at_stage_Some_r in Hat as [Hl _].
    destruct (thread_end_fs (thread_script th) (ReadRaises lines e) r st) as (_ & Hfs & _).
    apply (fs_inv_delete st _ (thread_script th)); [by eapply script_is_name | done | done].
  - destruct (at_stage i ChildRunning st) as [th|] eqn:Hat; [|done].
    apply at_stage_Some_r in Hat as [Hl _].
    destruct (thread_end_fs (thread_script th) (Exits lines code) r st) as (_ & Hfs & _).
    apply (fs_inv_delete st _ (thread_script th)); [by eapply script_is_name | done | done].
Qed.

Lemma run_fs_inv st acts :
  scripts_fresh env st → result_ui_inv fm w st → result_fs_inv env fm w st →
  result_fs_inv env fm w (run env fm st acts).
Proof.
  unfold run. revert st. induction acts as [|a acts IH]; intros st H1 H2 H3; [done|].
  cbn [foldl]. apply IH; [by apply step_scripts_fresh | by apply step_ui_inv |
                          by apply step_fs_inv].
Qed.

End ResultFiles.

(** In any run of a result viewer from its initial state, a path that is not
    the name of a generated script (the temporary directory joined with
    [von_mises_fix_] or [total_deformation_fix_], an identifier and [.py])
    holds at the end what it held at the start: the viewer creates,
    overwrites and removes nothing but its own scripts. *)
Theorem result_viewer_touches_only_scripts (env : ResultViewer.Env)
    (fm : FileManager.t) (w : World) (acts : list ResultViewer.Action) (p : string) :
  (∀ (von_mises : bool) (i : nat),
     p ≠ OsPath.join (ResultViewer.gettempdir env)
           ((if von_mises then "von_mises_fix_" else "total_deformation_fix_") +:+
            ResultViewer.uuid4 env i +:+ ".py")) →
  fs (ResultViewer.world (ResultViewer.run env fm (ResultViewer.boot w) acts)) !! p =
    fs w !! p.
Proof.
  intros Hp.
  assert (Hinv : result_fs_inv env fm w
                   (ResultViewer.run env fm (ResultViewer.boot w) acts)).
  { apply run_fs_inv.
    - exists []. split_and!; [done | constructor |]. intros t Ht. by apply elem_of_nil in Ht.
    - unfold result_ui_inv. cbn. split_and!; try done.
      + intros q Hq. by apply elem_of_nil in Hq.
      + exists []. rewrite app_nil_r. split; [done | apply not_elem_of_nil].
    - by split; [|left]. }
  destruct Hinv as [H1 _]. by apply H1.
Qed.

(** The data file survives a launch that fails and a launch that succeeds. *)
Lemma result_viewer_touches_only_scripts_witness :
  fs (ResultViewer.world
        (ResultViewer.run demo_env FileManager.init (ResultViewer.boot demo_world)
           [ResultViewer.Select ["/data/beam.rst"]; ResultViewer.ClickOpen;
            ResultViewer.Spawn 0;
            ResultViewer.ChildExit 0 [] 1 ResultViewer.RemoveOk])) !! "/data/beam.rst" =
    fs demo_world !! "/data/beam.rst".
Proof.
  apply (result_viewer_touches_only_scripts demo_env).
  intros von_mises i. destruct von_mises; vm_compute; discriminate.
Defined.

(** In any run of a result viewer from its initial state, every generated
    script among the files, unless it was there from the start, was written
    for a file whose lowercased final extension is an accepted result
    extension. *)
Theorem generated_scripts_embed_validated_files (env : ResultViewer.Env)
    (fm : FileManager.t) (w : World) (acts : list ResultViewer.Action)
    (p : string) (text : ScriptText) :
  fs (ResultViewer.world (ResultViewer.run env fm (ResultViewer.boot w) acts)) !! p =
    Some (Script text) →
  fs w !! p = Some (Script text) ∨
  PyStr.lower (OsPath.splitext (embedded_path text)).2 ∈
    FileManager.supported_result_files fm.
Proof.
  assert (Hinv : result_fs_inv env fm w
                   (ResultViewer.run env fm (ResultViewer.boot w) acts)).
  { apply run_fs_inv.
    - exists []. split_and!; [done | constructor |]. intros t Ht. by apply elem_of_nil in Ht.
    - unfold result_ui_inv. cbn. split_and!; try done.
      + intros q Hq. by apply elem_of_nil in Hq.
      + exists []. rewrite app_nil_r. split; [done | apply not_elem_of_nil].
    - by split; [|left]. }
  destruct Hinv as [_ H2]. apply H2.
Qed.

(** The script of a launch in flight embeds the selected result file. *)
Lemma generated_scripts_embed_validated_files_witness :
  fs demo_world !! "/tmp/von_mises_fix_0.py" = Some (Script (VonMisesFix "/data/beam.rst")) ∨
  PyStr.lower (OsPath.splitext (embedded_path (VonMisesFix "/data/beam.rst"))).2 ∈
    FileManager.supported_result_files FileManager.init.
Proof.
  apply (generated_scripts_embed_validated_files demo_env FileManager.init demo_world
           [ResultViewer.Select ["/data/beam.rst"]; ResultViewer.ClickOpen]
           "/tmp/von_mises_fix_0.py").
  vm_compute. reflexivity.
Defined.

(** ** The lifetime of a generated script *)

Section ScriptLife.
Import ResultViewer.
Context (env : Env) (fm : FileManager.t) (ok : Prop).
Context (Hinj : Inj (=) (=) (uuid4 env)).

Lemma script_is_old_name st i th :
  scripts_fresh env st → threads st !! i = Some th →
  ∃ k j, thread_script th = script_name env k j ∧ (j < uuid_calls (world st))%nat.
Proof.
  intros (tags & Hs & _ & Hlt) Hl.
  assert (Hin : thread_script th ∈ thread_script <$> threads st).
  { apply list_elem_of_fmap. exists th. split; [done|]. by eapply list_elem_of_lookup_2. }
  rewrite Hs in Hin. apply list_elem_of_fmap in Hin as ([k j] & -> & Hin).
  exists k, j. split; [done|]. by apply Hlt in Hin.
Qed.

Lemma scripts_differ st i j th th' :
  scripts_fresh env st → threads st !! i = Some th → threads st !! j = Some th' →
  thread_script th = thread_script th' → i = j.
Proof.
  intros Hfresh Hi Hj Heq.
  apply (NoDup_lookup (thread_script <$> threads st) i j (thread_script th)).
  - by apply (scripts_fresh_NoDup env).
  - by rewrite list_lookup_fmap, Hi.
  - by rewrite list_lookup_fmap, Hj, Heq.
Qed.

Lemma life_same st st' :
  threads st' = threads st → fs (world st') = fs (world st) →
  script_life ok st → script_life ok st'.
Proof. intros Ht Hfs H. unfold script_life. by rewrite Ht, Hfs. Qed.

Lemma life_spawn st i th :
  threads st !! i = Some th → thread_stage th ≠ ThreadDone →
  script_life ok st → script_life ok (move i ChildRunning (thread_begin (thread_script th) st)).
Proof.
  intros Hi Hstage H j th' Hj. cbn in *.
  rewrite list_lookup_alter in Hj. case_decide as Hij.
  - subst j. rewrite Hi in Hj. injection Hj as <-. cbn.
    split; [discriminate|]. intros _. by apply (H i th).
  - by apply (H j th').
Qed.

Lemma life_end st0 st i th c r :
  scripts_fresh env st → threads st !! i = Some th →
  threads st0 = threads st → fs (world st0) = fs (world st) →
  (ok → r = RemoveOk) →
  script_life ok st →
  script_life ok (move i ThreadDone (thread_end (thread_script th) c r st0)).
Proof.
  intros Hfresh Hi Hth0 Hfs0 Hr H j th' Hj.
  destruct (thread_end_fs (thread_script th) c r st0) as (Hth & Hfs & Hgone).
  cbn in *. rewrite Hth, Hth0 in Hj. rewrite Hfs0 in Hfs.
  rewrite list_lookup_alter in Hj. case_decide as Hij.
  - subst j. rewrite Hi in Hj. injection Hj as <-. cbn.
    split; [|done]. intros Hok _. by apply Hgone, Hr.
  - assert (Hne : thread_script th ≠ thread_script th').
    { intros Heq. apply Hij. by eapply scripts_differ. }
    destruct (H j th' Hj) as [Hd Hl].
    destruct Hfs as [-> | ->]; [done|]. by rewrite lookup_delete_ne.
Qed.

Lemma life_launch st first rest :
  scripts_fresh env st →
  selected_files (self st) = first :: rest →
  pyvista_available env && dpf_available env = true →
  script_write env (uuid_calls (world st)) = WriteOk →
  script_life ok st → script_life ok (open_interactive env st).
Proof.
  intros Hfresh Hsel Hdeps Hw H.
  rewrite (open_interactive_launch env st first rest Hsel Hdeps Hw).
  set (sp := script_name env _ _). intros j th' Hj. cbn in *.
  apply lookup_app_Some in Hj as [Hj|[Hlen Hj]].
  - destruct (script_is_old_name st j th' Hfresh Hj) as (k & n & Hname & Hlt).
    assert (Hne : sp ≠ thread_script th').
    { rewrite Hname. unfold sp. intros [_ Hu%Hinj]%script_name_inj. lia. }
    rewrite lookup_insert_ne by done. by apply (H j th').
  - destruct (j - length (threads st))%nat; [|done]. injection Hj as <-. cbn.
    split; [discriminate|]. intros _. rewrite lookup_insert_eq. by eexists.
Qed.

Lemma life_unwritten st first rest :
  scripts_fresh env st →
  selected_files (self st) = first :: rest →
  pyvista_available env && dpf_available env = true →
  script_write env (uuid_calls (world st)) ≠ WriteOk →
  script_life ok st → script_life ok (open_interactive env st).
Proof.
  intros Hfresh Hsel Hdeps Hw H.
  destruct (open_interactive_unwritten env st first rest Hsel Hdeps Hw)
    as (e & w' & -> & Hw').
  intros j th' Hj. cbn in *.
  destruct Hw' as [-> | ->]; cbn; [by apply (H j th')|].
  destruct (script_is_old_name st j th' Hfresh Hj) as (k & n & Hname & Hlt).
  rewrite lookup_insert_ne; [by apply (H j th')|].
  rewrite Hname. intros [_ Hu%Hinj]%script_name_inj. lia.
Qed.

Lemma step_script_life st a :
  scripts_fresh env st → (ok → removal_ok a) →
  script_life ok st → script_life ok (step env fm st a).
Proof.
  intros Hfresh Hr H.
  destruct a as [chosen|v| |i|i e r|i lines e r|i lines code r]; cbn [step].
  - apply (life_same st); [| |done].
    + by destruct (select_files_keeps fm chosen st) as [_ _];
        unfold select_files, FileManager.select_result_files;
        destruct (FileManager.validate_files chosen _ (world st)) as [[|f files] w'].
    + unfold select_files, FileManager.select_result_files.
      pose proof (validate_files_single_warning_frame (world st) chosen
                    (FileManager.supported_result_files fm)) as [Hfs _].
      by destruct (FileManager.validate_files chosen _ (world st)) as [[|f files] w'].
  - done.
  - destruct (interactive_btn (self st)); [|done].
    destruct (selected_files (self st)) as [|first rest] eqn:Hsel.
    { unfold open_interactive. rewrite Hsel. by apply (life_same st). }
    destruct (pyvista_available env && dpf_available env) eqn:Hdeps.
    + destruct (script_write env (uuid_calls (world st))) eqn:Hw.
      * by apply (life_launch st first rest).
      * apply (life_unwritten st first rest); [done..| |done]. by rewrite Hw.
      * apply (life_unwritten st first rest); [done..| |done]. by rewrite Hw.
    + unfold open_interactive. rewrite Hsel, Hdeps. by apply (life_same st).
  - destruct (at_stage i ThreadStarted st) as [th|] eqn:Hat; [|done].
    apply at_stage_Some_r in Hat as [Hi Hs]. apply life_spawn; [done| |done].
    rewrite Hs. discriminate.
  - destruct (at_stage i ThreadStarted st) as [th|] eqn:Hat; [|done].
    apply at_stage_Some_r in Hat as [Hi Hs].
    by apply (life_end (thread_begin (thread_script th) st) st).
  - destruct (at_stage i ChildRunning st) as [th|] eqn:Hat; [|done].
    apply at_stage_Some_r in Hat as [Hi Hs]. by apply (life_end st st).
  - destruct (at_stage i ChildRunning st) as [th|] eqn:Hat; [|done].
    apply at_stage_Some_r in Hat as [Hi Hs]. by apply (life_end st st).
Qed.

Lemma run_script_life st acts :
  scripts_fresh env st → (ok → Forall removal_ok acts) →
  script_life ok st → script_life ok (run env fm st acts).
Proof.
  unfold run. revert st. induction acts as [|a acts IH]; intros st Hfresh Hr H; [done|].
  cbn [foldl]. apply IH.
  - by apply step_scripts_fresh.
  - intros Hok. apply Hr in Hok. by apply Forall_cons in Hok as [_ ?].
  - apply step_script_life; [done| |done].
    intros Hok. apply Hr in Hok. by apply Forall_cons in Hok as [? _].
Qed.

End ScriptLife.

(** When [uuid.uuid4()] never returns the same value twice, then in any run
    of a result viewer from its initial state the script of every thread
    that has not finished is still among the files, whatever the other
    launches did; and if every removal attempted during the run succeeded,
    the script of every finished thread is gone. *)
Theorem script_lifetime (env : ResultViewer.Env) (fm : FileManager.t) (w : World)
    (acts : list ResultViewer.Action) (th : ResultViewer.Thread) :
  Inj (=) (=) (ResultViewer.uuid4 env) →
  th ∈ ResultViewer.threads (ResultViewer.run env fm (ResultViewer.boot w) acts) →
  let final := ResultViewer.world (ResultViewer.run env fm (ResultViewer.boot w) acts) in
  (ResultViewer.thread_stage th ≠ ResultViewer.ThreadDone →
   ∃ text, fs final !! ResultViewer.thread_script th = Some (Script text)) ∧
  (Forall removal_ok acts →
   ResultViewer.thread_stage th = ResultViewer.ThreadDone →
   path_exists final (ResultViewer.thread_script th) = false).
Proof.
  intros Hinj [i Hi]%list_elem_of_lookup_1. cbv zeta.
  assert (H : script_life (Forall removal_ok acts)
                (ResultViewer.run env fm (ResultViewer.boot w) acts)).
  { apply (run_script_life env fm _ Hinj); [|done|].
    - exists []. split_and!; [done | constructor |]. intros t Ht. by apply elem_of_nil in Ht.
    - intros j th' Hj. done. }
  destruct (H i th Hi) as [Hdone Hlive]. split; [done|].
  intros Hok Hstage. unfold path_exists. rewrite (Hdone Hok Hstage).
  apply bool_decide_eq_false_2. by intros [? ?].
Qed.

(** Two overlapping launches: the first has finished and its script is gone,
    the second is running and its script is there. *)
Lemma script_lifetime_witness :
  let acts := [ResultViewer.Select ["/data/beam.rst"]; ResultViewer.ClickOpen;
               ResultViewer.Spawn 0; ResultViewer.ClickOpen; ResultViewer.Spawn 1;
               ResultViewer.ChildExit 0 [] 0 ResultViewer.RemoveOk] in
  let final := ResultViewer.world
                 (ResultViewer.run demo_env FileManager.init (ResultViewer.boot demo_world) acts) in
  path_exists final "/tmp/von_mises_fix_0.py" = false.
Proof.
  cbv zeta.
  refine (proj2 (script_lifetime demo_env FileManager.init demo_world _
                   (ResultViewer.mkThread "/tmp/von_mises_fix_0.py"
                      ["/usr/bin/python3"; "/tmp/von_mises_fix_0.py"]
                      ResultViewer.ThreadDone)
                   pretty_nat_inj _) _ eq_refl).
  - vm_compute. constructor.
  - repeat constructor.
Defined.

(** ** The launcher *)

Section Launcher.
Import Process Launch.







#[local] Set Warnings "-clear-no-such-hyp".






End Launcher.



(** Standard input is closed and PyVista is missing: [input] raises
    [EOFError], and the launcher ends with status 1 without starting the
    GUI. *)
Example launcher_closed_stdin :
  let env := Launch.mkEnv (Launch.mkDeps true false true)
               (Launch.InputRaises (Process.Error "EOFError")) (λ _, Launch.PipOk)
               "/app" "/usr/bin/python3" true Launch.GuiOk in
  (Launch.script env).2 = 1 ∧
  last (Launch.script env).1 = Some (Process.PrintExc "EOFError") ∧
  Process.Chdir "/app" ∉ (Launch.script env).1.
Proof.
  cbv zeta. split_and!; [reflexivity | reflexivity |].
  cbn. repeat (apply not_elem_of_cons; split; [discriminate|]). apply not_elem_of_nil.
Qed.

(** ** [main.py] *)


(** Ctrl-C while the window is open: nothing is reported as an error of the
    start, and the status is the one of the interruption; a callback that
    calls [sys.exit(0)] ends the process with status 0. *)
Example main_loop_not_caught :
  (Main.script (Main.mkEnv true None
                  (Main.LoopRaises (Process.KeyboardInterrupt 130)))).2 = 130 ∧
  (Main.script (Main.mkEnv true None (Main.LoopRaises (Process.SystemExit 0)))).2 = 0 ∧
  (Main.script (Main.mkEnv true None (Main.LoopRaises (Process.Error "TclError")))).2 = 1.
Proof. split_and!; reflexivity. Qed.

(** ** Selections that accept nothing *)

(** When the file dialog is cancelled, or none of the chosen files passes
    validation, [select_files] of either viewer leaves the viewer as it was:
    the earlier selection, the file list and the state of the launch button
    are kept, and no thread is started. *)
Theorem empty_selection_keeps_state (fm : FileManager.t) (chosen : list string) :
  (∀ st : ResultViewer.Sys,
     (FileManager.validate_files chosen (FileManager.supported_result_files fm)
        (ResultViewer.world st)).1 = [] →
     ResultViewer.self (ResultViewer.select_files fm chosen st) = ResultViewer.self st ∧
     ResultViewer.threads (ResultViewer.select_files fm chosen st) =
       ResultViewer.threads st)
  ∧
  (∀ st : MechanicalViewer.Sys,
     (FileManager.validate_files chosen (FileManager.supported_mechanical_files fm)
        (MechanicalViewer.world st)).1 = [] →
     MechanicalViewer.self (MechanicalViewer.select_files fm chosen st) =
       MechanicalViewer.self st ∧
     MechanicalViewer.threads (MechanicalViewer.select_files fm chosen st) =
       MechanicalViewer.threads st).
Proof.
  split; intros st Hnone.
  - unfold ResultViewer.select_files, FileManager.select_result_files.
    destruct (FileManager.validate_files chosen _ (ResultViewer.world st)) as [files w'].
    cbn in Hnone. by subst files.
  - unfold MechanicalViewer.select_files, FileManager.select_mechanical_files.
    destruct (FileManager.validate_files chosen _ (MechanicalViewer.world st)) as [files w'].
    cbn in Hnone. by subst files.
Qed.

(** Choosing a mechanical file in the result viewer keeps the result
    selection. *)
Lemma empty_selection_keeps_state_witness :
  ResultViewer.self
    (ResultViewer.select_files FileManager.init ["/data/frame.mechdat"] demo_selected) =
  ResultViewer.self demo_selected.
Proof.
  exact (proj1 (proj1 (empty_selection_keeps_state FileManager.init ["/data/frame.mechdat"])
                  demo_selected eq_refl)).
Defined.

(** ** The example viewer's [launch_viewer] *)

(** In the example viewer a launch schedules exactly one callback.  When
    the child completes, with any return code, the temporary script is
    unlinked before the outcome is reported; an unlink that fails is
    swallowed without a trace (same console, same dialogs, same callback)
    and leaves the file.  When [subprocess.run] itself raises, the unlink is
    skipped and the temporary script stays behind. *)
Theorem launch_viewer_cleanup (executable temp_script file_path result_type : string)
    (st : SnippetViewer.Sys) :
  (∀ (returncode : Z) (stdout stderr : string),
     let ok := SnippetViewer.launch_viewer executable temp_script None
                 (SnippetViewer.Completed returncode stdout stderr)
                 SnippetViewer.UnlinkOk file_path result_type st in
     let ko := SnippetViewer.launch_viewer executable temp_script None
                 (SnippetViewer.Completed returncode stdout stderr)
                 SnippetViewer.UnlinkRaises file_path result_type st in
     path_exists (SnippetViewer.world ok) temp_script = false ∧
     path_exists (SnippetViewer.world ko) temp_script = true ∧
     console (SnippetViewer.world ko) = console (SnippetViewer.world st) ∧
     dialogs (SnippetViewer.world ko) = dialogs (SnippetViewer.world st) ∧
     SnippetViewer.scheduled ko = SnippetViewer.scheduled ok ∧
     SnippetViewer.scheduled ok =
       SnippetViewer.scheduled st ++
       [if returncode =? 0 then SnippetViewer.OnSuccess
        else SnippetViewer.OnError (if String.eqb stderr "" then stdout else stderr)])
  ∧
  (∀ (e : string) (u : SnippetViewer.UnlinkRun),
     let failed := SnippetViewer.launch_viewer executable temp_script None
                     (SnippetViewer.RunRaises e) u file_path result_type st in
     path_exists (SnippetViewer.world failed) temp_script = true ∧
     SnippetViewer.scheduled failed =
       SnippetViewer.scheduled st ++ [SnippetViewer.OnErrorOf e])
  ∧
  (∀ (e : string) (r : SnippetViewer.RunResult) (u : SnippetViewer.UnlinkRun),
     let unwritten := SnippetViewer.launch_viewer executable temp_script (Some e)
                        r u file_path result_type st in
     SnippetViewer.spawned unwritten = SnippetViewer.spawned st ∧
     fs (SnippetViewer.world unwritten) = fs (SnippetViewer.world st) ∧
     SnippetViewer.scheduled unwritten =
       SnippetViewer.scheduled st ++ [SnippetViewer.OnErrorOf e]).
Proof.
  assert (Hin : ∀ w0, path_exists (write_file temp_script Opaque w0) temp_script = true).
  { intros w0. unfold path_exists. cbn. rewrite lookup_insert_eq.
    by apply bool_decide_eq_true_2. }
  assert (Hout : ∀ w0, path_exists (remove_file temp_script w0) temp_script = false).
  { intros w0. unfold path_exists. cbn. rewrite lookup_delete_eq.
    apply bool_decide_eq_false_2. by intros [? ?]. }
  split_and!.
  - intros returncode stdout stderr. cbv zeta. unfold SnippetViewer.launch_viewer.
    destruct (returncode =? 0); cbn [SnippetViewer.after SnippetViewer.world
      SnippetViewer.scheduled SnippetViewer.spawned]; split_and!; done.
  - intros e u. cbv zeta. cbn. split; [apply Hin | done].
  - intros e r u. cbv zeta. by cbn.
Qed.
